(** * Staging-to-Data-Vault loader: a shallow embedding of
      [dds_layer/dds_loader.py], [stg_layer/stg_loader.py], [utils/decorators.py]
      and the driver [main_dds.py].

    Conventions of the embedding.
    - Python [int] is [Z]; Python [str] is [string], read as the UTF-8 byte
      sequence of the text, so that [str.encode()] is the list of its bytes.
    - A raised exception is a value of [exn]; fallible code returns [result].
    - A [pandas.DataFrame] is a list of column labels and a list of rows of
      cells; the row index is not represented (every [to_csv] call of the
      program passes [index=False]).
    - Calls into [psycopg] are transitions of an explicit connection state, and
      what the target store answers is an explicit argument. *)

From Stdlib Require Import List ZArith Lia Bool Ascii String DecimalString.
From Stdlib Require DecimalZ.
From Equations Require Import Equations.
Import ListNotations.

Local Open Scope string_scope.
Local Open Scope list_scope.
Local Open Scope Z_scope.

(** ** [hashlib.md5]: the RFC 1321 digest on byte lists *)

Module MD5.

Definition word_mod : Z := 4294967296.

Definition wrap (x : Z) : Z := x mod word_mod.

Definition rotl (x : Z) (c : Z) : Z :=
  wrap (Z.lor (Z.shiftl x c) (Z.shiftr x (32 - c))).

Definition wnot (x : Z) : Z := Z.lxor x 4294967295.

Definition K : list Z :=
  [ 0xd76aa478; 0xe8c7b756; 0x242070db; 0xc1bdceee;
    0xf57c0faf; 0x4787c62a; 0xa8304613; 0xfd469501;
    0x698098d8; 0x8b44f7af; 0xffff5bb1; 0x895cd7be;
    0x6b901122; 0xfd987193; 0xa679438e; 0x49b40821;
    0xf61e2562; 0xc040b340; 0x265e5a51; 0xe9b6c7aa;
    0xd62f105d; 0x02441453; 0xd8a1e681; 0xe7d3fbc8;
    0x21e1cde6; 0xc33707d6; 0xf4d50d87; 0x455a14ed;
    0xa9e3e905; 0xfcefa3f8; 0x676f02d9; 0x8d2a4c8a;
    0xfffa3942; 0x8771f681; 0x6d9d6122; 0xfde5380c;
    0xa4beea44; 0x4bdecfa9; 0xf6bb4b60; 0xbebfbc70;
    0x289b7ec6; 0xeaa127fa; 0xd4ef3085; 0x04881d05;
    0xd9d4d039; 0xe6db99e5; 0x1fa27cf8; 0xc4ac5665;
    0xf4292244; 0x432aff97; 0xab9423a7; 0xfc93a039;
    0x655b59c3; 0x8f0ccc92; 0xffeff47d; 0x85845dd1;
    0x6fa87e4f; 0xfe2ce6e0; 0xa3014314; 0x4e0811a1;
    0xf7537e82; 0xbd3af235; 0x2ad7d2bb; 0xeb86d391 ].

Definition S : list Z :=
  [ 7; 12; 17; 22; 7; 12; 17; 22; 7; 12; 17; 22; 7; 12; 17; 22;
    5; 9; 14; 20; 5; 9; 14; 20; 5; 9; 14; 20; 5; 9; 14; 20;
    4; 11; 16; 23; 4; 11; 16; 23; 4; 11; 16; 23; 4; 11; 16; 23;
    6; 10; 15; 21; 6; 10; 15; 21; 6; 10; 15; 21; 6; 10; 15; 21 ].

(** The chaining value (A, B, C, D). *)
Record state := mk_state { sA : Z; sB : Z; sC : Z; sD : Z }.

Definition init : state :=
  mk_state 0x67452301 0xefcdab89 0x98badcfe 0x10325476.

(** Little-endian 32-bit word of four bytes. *)
Definition word_of_bytes (bs : list Z) : Z :=
  nth 0 bs 0 + 256 * nth 1 bs 0 + 65536 * nth 2 bs 0 + 16777216 * nth 3 bs 0.

Definition bytes_of_word (w : Z) : list Z :=
  [ w mod 256; (w / 256) mod 256; (w / 65536) mod 256; (w / 16777216) mod 256 ].

Fixpoint group (size : nat) (count : nat) (bs : list Z) : list (list Z) :=
  match count with
  | O => []
  | Datatypes.S n => firstn size bs :: group size n (skipn size bs)
  end.

(** Message padding: one 0x80 byte, zero bytes up to 56 modulo 64, then the
    bit length on 64 bits, little endian. *)
Definition pad (msg : list Z) : list Z :=
  let len := Z.of_nat (List.length msg) in
  let zeros := Z.to_nat ((55 - len) mod 64) in
  let bits := (8 * len) mod 18446744073709551616 in
  msg ++ [128] ++ repeat 0 zeros
      ++ bytes_of_word (bits mod word_mod) ++ bytes_of_word (bits / word_mod).

Definition round (M : list Z) (st : state) (i : nat) : state :=
  let '(mk_state a b c d) := st in
  let zi := Z.of_nat i in
  let '(f, g) :=
    if zi <? 16 then (Z.lor (Z.land b c) (Z.land (wnot b) d), zi)
    else if zi <? 32 then (Z.lor (Z.land d b) (Z.land (wnot d) c), (5 * zi + 1) mod 16)
    else if zi <? 48 then (Z.lxor (Z.lxor b c) d, (3 * zi + 5) mod 16)
    else (Z.lxor c (Z.lor b (wnot d)), (7 * zi) mod 16) in
  let f' := wrap (f + a + nth i K 0 + nth (Z.to_nat g) M 0) in
  mk_state d (wrap (b + rotl f' (nth i S 0))) b c.

Definition compress (st : state) (block : list Z) : state :=
  let M := map word_of_bytes (group 4 16 block) in
  let '(mk_state a b c d) := fold_left (round M) (seq 0 64) st in
  mk_state (wrap (sA st + a)) (wrap (sB st + b))
           (wrap (sC st + c)) (wrap (sD st + d)).

(** [hashlib.md5(data).digest()]: sixteen bytes. *)
Definition digest (msg : list Z) : list Z :=
  let p := pad msg in
  let st := fold_left compress (group 64 (List.length p / 64) p) init in
  bytes_of_word (sA st) ++ bytes_of_word (sB st)
    ++ bytes_of_word (sC st) ++ bytes_of_word (sD st).

Definition hex_digit (n : Z) : ascii :=
  match n mod 16 with
  | 0 => "0" | 1 => "1" | 2 => "2" | 3 => "3" | 4 => "4" | 5 => "5"
  | 6 => "6" | 7 => "7" | 8 => "8" | 9 => "9" | 10 => "a" | 11 => "b"
  | 12 => "c" | 13 => "d" | 14 => "e" | _ => "f"
  end%char.

Definition hex_byte (b : Z) : list ascii := [hex_digit (b / 16); hex_digit b].

(** [hashlib.md5(data).hexdigest()]. *)
Definition hexdigest (msg : list Z) : string :=
  string_of_list_ascii (flat_map hex_byte (digest msg)).

End MD5.

(** [s.encode()]: the bytes of the text. *)
Definition encode (s : string) : list Z :=
  map (fun c => Z.of_N (N_of_ascii c)) (list_ascii_of_string s).


(** ** Exceptions and fallible results *)

(** The exception classes the program can meet.  [KeyboardInterrupt],
    [SystemExit] and [asyncio.CancelledError] derive from [BaseException]
    only; every other class derives from [Exception]. *)
Inductive exn : Type :=
| KeyError (key : string)
| ValueError (msg : string)
| OperationalError (msg : string)
| UndefinedTable (msg : string)
| BadCopyFileFormat (msg : string)
| NotNullViolation (msg : string)
| ForeignKeyViolation (msg : string)
| CheckViolation (msg : string)
| UniqueViolation (msg : string)
| KeyboardInterrupt
| SystemExit (code : Z)
| CancelledError.

(** [isinstance(e, Exception)]. *)
Definition is_Exception (e : exn) : bool :=
  match e with
  | KeyboardInterrupt | SystemExit _ | CancelledError => false
  | _ => true
  end.

(** [isinstance(e, psycopg.errors.UniqueViolation)]. *)
Definition is_UniqueViolation (e : exn) : bool :=
  match e with
  | UniqueViolation _ => true
  | _ => false
  end.

(** [str(e)] for the exceptions whose text the program logs. *)
Definition exn_message (e : exn) : string :=
  match e with
  | KeyError m | ValueError m | OperationalError m | UndefinedTable m
  | BadCopyFileFormat m | NotNullViolation m | ForeignKeyViolation m
  | CheckViolation m | UniqueViolation m => m
  | KeyboardInterrupt | CancelledError => EmptyString
  | SystemExit _ => EmptyString
  end.

Inductive result (A : Type) : Type :=
| Ok (a : A)
| Raise (e : exn).

Arguments Ok {A} a.
Arguments Raise {A} e.

Definition bind {A B : Type} (m : result A) (k : A -> result B) : result B :=
  match m with
  | Ok a => k a
  | Raise e => Raise e
  end.

Declare Scope result_scope.
Delimit Scope result_scope with result.
Notation "x <- m ;; k" := (bind m (fun x => k))
  (at level 61, m at next level, right associativity) : result_scope.

(** ** Scalars and [str()] *)

(** A cell of a frame: an [int], a [str], or a missing value ([None]). *)
Inductive value : Type :=
| VInt (z : Z)
| VStr (s : string)
| VNone.

Definition value_eq_dec (a b : value) : {a = b} + {a <> b}.
Proof. decide equality; [apply Z.eq_dec | apply string_dec]. Defined.

Definition row := list value.

Definition row_eq_dec : forall a b : row, {a = b} + {a <> b} :=
  list_eq_dec value_eq_dec.

Definition row_eqb (a b : row) : bool := if row_eq_dec a b then true else false.

(** The [__str__] protocol. *)
Class PyStr (A : Type) : Type := py_str : A -> string.

(** [str(n)] of an [int]: decimal digits, with a leading minus sign. *)
#[export] Instance PyStr_int : PyStr Z :=
  fun z => NilZero.string_of_int (Z.to_int z).

#[export] Instance PyStr_str : PyStr string := fun s => s.

#[export] Instance PyStr_bool : PyStr bool :=
  fun b => if b then "True" else "False".

#[export] Instance PyStr_value : PyStr value :=
  fun v =>
    match v with
    | VInt z => py_str z
    | VStr s => s
    | VNone => "None"
    end.

(** ** Key Deriver: [lambda x: hashlib.md5(str(x).encode()).hexdigest()] *)

Definition key_hash {A : Type} `{PyStr A} (x : A) : string :=
  MD5.hexdigest (encode (py_str x)).

(** ** Frames *)

Record DataFrame : Type := mkDF { columns : list string; rows : list row }.

Definition Series := list value.

Fixpoint index_of (c : string) (cols : list string) : option nat :=
  match cols with
  | [] => None
  | c' :: tl =>
      if String.eqb c c' then Some O
      else match index_of c tl with
           | Some i => Some (Datatypes.S i)
           | None => None
           end
  end.

(** [df[c]]: the column labelled [c], [KeyError] when there is none. *)
Definition getitem (df : DataFrame) (c : string) : result Series :=
  match index_of c (columns df) with
  | Some i => Ok (map (fun r => nth i r VNone) (rows df))
  | None => Raise (KeyError c)
  end.

(** [series.apply(f)]. *)
Definition apply (f : value -> value) (s : Series) : Series := map f s.

Fixpoint set_nth (i : nat) (v : value) (r : row) : row :=
  match i, r with
  | _, [] => []
  | O, _ :: tl => v :: tl
  | Datatypes.S j, x :: tl => x :: set_nth j v tl
  end.

(** [df[c] = s], for a series [s] computed from a column of [df] itself (its
    labels are those of [df], so values meet rows one to one): the column is
    overwritten when [c] is a label of [df] and appended otherwise. *)
Definition setitem (df : DataFrame) (c : string) (s : Series) : DataFrame :=
  match index_of c (columns df) with
  | Some i => mkDF (columns df) (map (fun rv => set_nth i (snd rv) (fst rv)) (combine (rows df) s))
  | None => mkDF (columns df ++ [c]) (map (fun rv => fst rv ++ [snd rv]) (combine (rows df) s))
  end.

Fixpoint indices_of (cs : list string) (cols : list string) : result (list nat) :=
  match cs with
  | [] => Ok []
  | c :: tl =>
      match index_of c cols with
      | None => Raise (KeyError c)
      | Some i =>
          match indices_of tl cols with
          | Ok l => Ok (i :: l)
          | Raise e => Raise e
          end
      end
  end.

(** [df[[c1, ..., cn]]]: the sub-frame of these columns, in this order. *)
Definition getitem_list (df : DataFrame) (cs : list string) : result DataFrame :=
  match indices_of cs (columns df) with
  | Ok idx => Ok (mkDF cs (map (fun r => map (fun i => nth i r VNone) idx) (rows df)))
  | Raise e => Raise e
  end.

(** Keep the first row of every class of equal keys ([keep="first"]). *)
Fixpoint dedup_on {A K : Type} (eqb : K -> K -> bool) (key : A -> K) (l : list A) : list A :=
  match l with
  | [] => []
  | x :: tl => x :: filter (fun y => negb (eqb (key x) (key y))) (dedup_on eqb key tl)
  end.

(** [df.drop_duplicates()]: rows compared on all their columns. *)
Definition drop_duplicates (df : DataFrame) : DataFrame :=
  mkDF (columns df) (dedup_on row_eqb (fun r => r) (rows df)).

(** [df.drop_duplicates(subset=[c])]: rows compared on column [c] alone. *)
Definition drop_duplicates_subset (df : DataFrame) (c : string) : result DataFrame :=
  match index_of c (columns df) with
  | Some i => Ok (mkDF (columns df)
                       (dedup_on (fun a b => if value_eq_dec a b then true else false)
                                 (fun r => nth i r VNone) (rows df)))
  | None => Raise (KeyError c)
  end.

Fixpoint assoc {V : Type} (k : string) (d : list (string * V)) : option V :=
  match d with
  | [] => None
  | (k', v) :: tl => if String.eqb k k' then Some v else assoc k tl
  end.

(** [df.rename(columns=mapping)]. *)
Definition rename (df : DataFrame) (mapping : list (string * string)) : DataFrame :=
  mkDF (map (fun c => match assoc c mapping with Some c' => c' | None => c end) (columns df))
       (rows df).

(** ** The staged batch *)

(** One row of [stg.raw_test_data]; [None] in a text column is SQL NULL. *)
Record RawRecord : Type := mkRaw {
  raw_user_id : Z;
  raw_id : Z;
  raw_title : option string;
  raw_body : option string }.

Definition dict := list (string * value).

Definition text_value (t : option string) : value :=
  match t with
  | Some s => VStr s
  | None => VNone
  end.

(** The [dict_row] of the query [SELECT user_id, id, title, body]. *)
Definition dict_row (r : RawRecord) : dict :=
  [ ("user_id", VInt (raw_user_id r)); ("id", VInt (raw_id r));
    ("title", text_value (raw_title r)); ("body", text_value (raw_body r)) ].

(** [pd.DataFrame.from_dict(data)] on a list of dicts: the labels are the keys
    met, in the order met; a list with no dict gives a frame with no column. *)
Definition from_dict (data : list dict) : DataFrame :=
  let cols := dedup_on String.eqb (fun k => k) (flat_map (map fst) data) in
  mkDF cols
       (map (fun d => map (fun c => match assoc c d with Some v => v | None => VNone end) cols)
            data).

Definition transform_data_to_df (data : list dict) : DataFrame := from_dict data.

(** ** [DDSLoader.add_hashes_to_raw_data] and [DDSLoader.split_df_to_tables] *)

Definition hash_cell (x : value) : value := VStr (key_hash x).

Definition add_hashes_to_raw_data (df : DataFrame) : result DataFrame :=
  (users <- getitem df "user_id" ;;
   let df1 := setitem df "user_id_hash" (apply hash_cell users) in
   ids <- getitem df1 "id" ;;
   Ok (setitem df1 "letter_id_hash" (apply hash_cell ids)))%result.

Record tables : Type := mkTables {
  df_users_hub : DataFrame;
  df_letters_hub : DataFrame;
  df_letters_satellite : DataFrame;
  df_posts_link : DataFrame }.

Definition split_df_to_tables (df : DataFrame) : result tables :=
  (users_hub <- getitem_list df ["user_id"; "user_id_hash"] ;;
   let users_hub := drop_duplicates users_hub in
   letters_hub <- getitem_list df ["id"; "letter_id_hash"] ;;
   let letters_hub := rename letters_hub [("id", "letter_id")] in
   letters_satellite <- getitem_list df ["letter_id_hash"; "title"; "body"] ;;
   posts_link <- getitem_list df ["user_id_hash"; "letter_id_hash"] ;;
   Ok (mkTables users_hub letters_hub letters_satellite posts_link))%result.

(** The frame of a staged batch that carries the four staging columns,
    whatever its number of rows. *)
Definition staged_frame (batch : list RawRecord) : DataFrame :=
  mkDF ["user_id"; "id"; "title"; "body"]
       (map (fun r => [VInt (raw_user_id r); VInt (raw_id r);
                       text_value (raw_title r); text_value (raw_body r)]) batch).

(** Key Deriver then Table Projector, as [main_dds.py] chains them. *)
Definition enrich_and_split (df : DataFrame) : result tables :=
  (df' <- add_hashes_to_raw_data df ;; split_df_to_tables df')%result.

(** ** Serialisation: [df.to_csv(buffer, index=False, header=False, na_rep=r"\N")] *)

Definition char (n : nat) : string := String (ascii_of_nat n) EmptyString.

Definition dquote : string := char 34.
Definition newline : string := char 10.



(** The null sentinel [r"\N"]. *)
Definition na_rep : string := "\N".

(** The text of a cell: [na_rep] for a missing value, [str] otherwise. *)
Definition cell_text (v : value) : string :=
  match v with
  | VNone => na_rep
  | VInt z => py_str z
  | VStr s => s
  end.

Definition is_special (lineterminator : string) (c : ascii) : bool :=
  Ascii.eqb c "," || Ascii.eqb c (ascii_of_nat 34)
  || Ascii.eqb c (ascii_of_nat 10) || Ascii.eqb c (ascii_of_nat 13)
  || existsb (Ascii.eqb c) (list_ascii_of_string lineterminator).

Fixpoint double_quotes (s : string) : string :=
  match s with
  | EmptyString => EmptyString
  | String c tl =>
      if Ascii.eqb c (ascii_of_nat 34)
      then String c (String c (double_quotes tl))
      else String c (double_quotes tl)
  end.

(** [csv.QUOTE_MINIMAL] with [doublequote=True]. *)
Definition csv_field (lineterminator : string) (s : string) : string :=
  if existsb (is_special lineterminator) (list_ascii_of_string s)
  then (dquote ++ double_quotes s ++ dquote)%string
  else s.

(** One record of the writer; a record made of a single empty field is
    written as a pair of quotes. *)
Definition csv_row (lineterminator : string) (r : row) : string :=
  let body := String.concat "," (map (fun v => csv_field lineterminator (cell_text v)) r) in
  let body := match r with
              | [_] => if String.eqb body EmptyString then (dquote ++ dquote)%string else body
              | _ => body
              end in
  (body ++ lineterminator)%string.

(** No header record and no index column: the records of the rows, in order.
    [lineterminator] is [os.linesep]. *)
Definition to_csv (lineterminator : string) (df : DataFrame) : string :=
  String.concat EmptyString (map (csv_row lineterminator) (rows df)).

(** ** [io.StringIO] *)

Record StringIO : Type := mkIO { getvalue : string; tell : nat }.

Definition StringIO_new : StringIO := mkIO EmptyString O.

(** [buffer.write(s)] on a buffer positioned at its end. *)
Definition write (buf : StringIO) (s : string) : StringIO :=
  mkIO (getvalue buf ++ s)%string (tell buf + String.length s)%nat.

Definition seek (buf : StringIO) (p : nat) : StringIO := mkIO (getvalue buf) p.

Definition remaining (buf : StringIO) : string :=
  substring (tell buf) (String.length (getvalue buf) - tell buf) (getvalue buf).

(** [buffer.read(size)]: at most [size] characters from the position, all of
    the rest when [size] is negative. *)
Definition read (buf : StringIO) (size : Z) : string * StringIO :=
  let data := if size <? 0 then remaining buf
              else substring 0 (Z.to_nat size) (remaining buf) in
  (data, mkIO (getvalue buf) (tell buf + String.length data)%nat).

(** ** Effects: the target store, the connection and the log *)

Inductive level : Type := DEBUG | INFO | WARNING | ERROR | CRITICAL.

Inductive event : Type :=
| Connect
| Execute (sql : string)
| CopyStart (statement : string)
| CopyWrite (data : string)
| CopyFinish
| CopyAbort
| Commit
| Rollback
| Close
| Log (lvl : level) (msg : string).

(** What the target store answers to one connection: [None] is success,
    [Some e] is the error psycopg raises at that call. *)
Record store : Type := mkStore {
  connect_answer : option exn;
  select_answer : result (list RawRecord);
  copy_start_answer : string -> option exn;
  copy_write_answer : nat -> string -> option exn;
  copy_finish_answer : string -> option exn }.

(** A computation: the events it performed and how it ended. *)
Definition io (A : Type) : Type := (list event * result A)%type.

Definition io_ret {A : Type} (a : A) : io A := ([], Ok a).

Definition io_raise {A : Type} (e : exn) : io A := ([], Raise e).

Definition io_bind {A B : Type} (m : io A) (k : A -> io B) : io B :=
  match m with
  | (t, Ok a) => let '(t', r) := k a in (t ++ t', r)
  | (t, Raise e) => (t, Raise e)
  end.

Declare Scope io_scope.
Delimit Scope io_scope with io.
Notation "x <- m ;; k" := (io_bind m (fun x => k))
  (at level 61, m at next level, right associativity) : io_scope.
Notation "m ;; k" := (io_bind m (fun _ => k))
  (at level 61, right associativity) : io_scope.

Definition emit (ev : event) : io unit := ([ev], Ok tt).

(** A call to the store: the event, then the store's answer. *)
Definition call (ev : event) (answer : option exn) : io unit :=
  match answer with
  | None => ([ev], Ok tt)
  | Some e => ([ev], Raise e)
  end.

Definition lift {A : Type} (r : result A) : io A := ([], r).

Definition logger_debug (msg : string) : io unit := emit (Log DEBUG msg).
Definition logger_error (msg : string) : io unit := emit (Log ERROR msg).

(** [try: body except cls as e: handler(e)], where [catches] is the
    [isinstance] test of the clause. *)
Definition try_except {A : Type} (body : io A) (catches : exn -> bool)
           (handler : exn -> io A) : io A :=
  match body with
  | (t, Raise e) =>
      if catches e then let '(t', r) := handler e in (t ++ t', r) else (t, Raise e)
  | ok => ok
  end.

(** ** [utils.decorators.with_connection] *)

Definition with_connection {A : Type} (db : store) (f : io A) : io A :=
  (call Connect (connect_answer db) ;;                       (* conn = psycopg.connect(CONN_STR) *)
   match f with                                              (* try: rv = f(..., conn=conn) *)
   | (t, Raise e) =>
       if is_Exception e
       then (t ++ [Rollback; Close], Raise e)                (* except Exception: rollback; raise; finally: close *)
       else (t ++ [Close], Raise e)                          (* finally: close *)
   | (t, Ok rv) => (t ++ [Commit; Close], Ok rv)             (* else: commit; finally: close; return rv *)
   end)%io.

(** ** The bulk copy *)

(** [async with aconn:] and [with conn:] of psycopg: commit when the block
    ends normally, roll back when it raises, close in both cases. *)
Definition connection_block {A : Type} (body : io A) : io A :=
  match body with
  | (t, Ok a) => (t ++ [Commit; Close], Ok a)
  | (t, Raise e) => (t ++ [Rollback; Close], Raise e)
  end.

(** [with cursor.copy(statement) as copy: body]: the statement is sent on
    entry; on exit the copy is finished, or aborted when the block raised. *)
Definition copy_block (db : store) (statement : string) (body : io unit) : io unit :=
  (call (CopyStart statement) (copy_start_answer db statement) ;;
   match body with
   | (t, Ok _) => ((t, Ok tt) ;; call CopyFinish (copy_finish_answer db statement))
   | (t, Raise e) => (t ++ [CopyAbort], Raise e)
   end)%io.

Definition string_empty_dec (s : string) : {s = EmptyString} + {s <> EmptyString}.
Proof. destruct s; [left; reflexivity | right; discriminate]. Defined.

(** Characters between the position and the end of the buffer. *)
Definition left_to_read (buf : StringIO) : nat :=
  (String.length (getvalue buf) - tell buf)%nat.

(** [while data := buffer.read(block_size): copy.write(data)]; [k] counts the
    chunks already written.  The loop ends at the first empty read, and a
    read that is not empty moves the position forward. *)
Equations copy_loop (db : store) (k : nat) (buf : StringIO) (block_size : Z) : io unit
  by wf (left_to_read buf) lt :=
  copy_loop db k buf block_size with string_empty_dec (fst (read buf block_size)) := {
    | left _ => io_ret tt
    | right _ =>
        (call (CopyWrite (fst (read buf block_size)))
              (copy_write_answer db k (fst (read buf block_size))) ;;
         copy_loop db (Datatypes.S k) (snd (read buf block_size)) block_size)%io }.
Next Obligation.
  assert (Hsub : forall s n m, (String.length (substring n m s) <= m)%nat).
  { induction s as [|c s IH]; intros [|a] [|b]; simpl; try lia.
    - specialize (IH 0%nat b). lia.
    - apply IH.
    - specialize (IH a (Datatypes.S b)). lia. }
  unfold read, left_to_read in *. simpl in *.
  set (d := if block_size <? 0 then _ else _) in *.
  assert (Hle : (String.length d <= String.length (getvalue buf) - tell buf)%nat).
  { subst d. destruct (block_size <? 0).
    - apply Hsub.
    - etransitivity; [ | apply (Hsub (getvalue buf) (tell buf)) ].
      fold (remaining buf). generalize (remaining buf) as r.
      generalize (Z.to_nat block_size) as j.
      intros j r. revert j. induction r as [|c r IH]; intros [|j]; simpl; try lia.
      specialize (IH j). lia. }
  assert (String.length d <> 0)%nat by (destruct d; simpl; [congruence | lia]).
  lia.
Qed.

(** [f"{schema}.{table_name}" if schema else table_name]. *)
Definition table_path (schema : option string) (table_name : string) : string :=
  match schema with
  | None | Some EmptyString => table_name
  | Some sc => (sc ++ "." ++ table_name)%string
  end.

(** [",".join(f'"{c}"' for c in (columns or df.columns))]. *)
Definition columns_clause (cols : option (list string)) (df : DataFrame) : string :=
  let names := match cols with
               | None | Some [] => columns df
               | Some l => l
               end in
  String.concat "," (map (fun c => (dquote ++ c ++ dquote)%string) names).

Definition spaces (n : nat) : string := string_of_list_ascii (repeat " "%char n).

(** The triple-quoted f-string of the COPY command; [indent] is the column at
    which the source writes it. *)
Definition copy_statement (indent : nat) (path clause : string) : string :=
  (newline ++ spaces indent ++ "COPY " ++ path ++ " (" ++ clause ++ ")"
   ++ newline ++ spaces indent ++ "FROM STDIN WITH (FORMAT CSV, NULL '\N')"
   ++ newline ++ spaces (indent - 4))%string.

(** [str(x)] inside an f-string, for an optional name. *)
Definition format_optional (s : option string) : string :=
  match s with
  | Some x => x
  | None => "None"
  end.

(** ** [DDSLoader.upload_dds_table] *)

Definition duplicate_message (e : exn) : string :=
  ("Data you are trying to load is already exists: " ++ exn_message e)%string.

(** The block under [try:]. *)
Definition upload_dds_attempt (lineterminator : string) (db : store) (df : DataFrame)
           (table_name : string) (cols : option (list string)) (schema : option string)
           (block_size : Z) : io unit :=
  (call Connect (connect_answer db) ;;
   connection_block
     (let buffer := StringIO_new in
      let buffer := write buffer (to_csv lineterminator df) in
      let buffer := seek buffer 0 in
      let path := table_path schema table_name in
      let clause := columns_clause cols df in
      logger_debug ("Uploading df into table: " ++ format_optional schema ++ "."
                    ++ table_name ++ "...") ;;
      copy_block db (copy_statement 24 path clause)
                 (copy_loop db 0 buffer block_size)))%io.

Definition upload_dds_table (lineterminator : string) (db : store) (df : DataFrame)
           (table_name : string) (cols : option (list string)) (schema : option string)
           (block_size : Z) : io unit :=
  try_except
    (upload_dds_attempt lineterminator db df table_name cols schema block_size)
    is_UniqueViolation
    (fun e => logger_error (duplicate_message e)).

(** ** [STGLoader.copy_df] and [STGLoader.upload_df_to_db] *)

Definition copy_df (lineterminator : string) (db : store) (df : DataFrame)
           (table_name : string) (cols : option (list string)) (schema : option string)
           (block_size : Z) : io unit :=
  let buffer := StringIO_new in
  let buffer := write buffer (to_csv lineterminator df) in
  let buffer := seek buffer 0 in
  let path := table_path schema table_name in
  let clause := columns_clause cols df in
  copy_block db (copy_statement 12 path clause) (copy_loop db 0 buffer block_size).

Record STGLoader : Type := mkSTG {
  stg_url : string;
  stg_table_name : string;
  stg_schema : string }.

Definition default_block_size : Z := 65536.

Definition upload_df_to_db (lineterminator : string) (db : store) (self : STGLoader)
           (df : DataFrame) : io unit :=
  with_connection db
    (logger_debug "Uploading data to db..." ;;
     try_except
       (copy_df lineterminator db df (stg_table_name self) None (Some (stg_schema self))
                default_block_size)
       is_UniqueViolation
       (fun e => logger_error (duplicate_message e)))%io.

(** ** [DDSLoader] *)

Record DDSLoader : Type := mkDDS {
  table_h_users : string;
  table_h_letters : string;
  table_s_letters : string;
  table_l_posts : string;
  schema : string }.

(** The query of [download_stg_data], on one line. *)
Definition select_raw : string :=
  "SELECT user_id, id, title, body FROM stg.raw_test_data;".

Definition download_stg_data (db : store) : io (list dict) :=
  with_connection db
    (logger_debug "Downloading data from raw_test_data table..." ;;
     emit (Execute select_raw) ;;
     data <- lift (select_answer db) ;;
     io_ret (map dict_row data))%io.

(** ** The event loop of [asyncio] *)

(** A task made from a coroutine: the number of suspension points still ahead
    of it and the outcome it reaches after the last one; or finished; or
    cancelled. *)
Inductive task : Type :=
| Pending (awaits : nat) (outcome : result unit)
| Finished (outcome : result unit)
| Cancelled.

(** Every call to the store is awaited; logging is not. *)
Definition is_await (ev : event) : bool :=
  match ev with
  | Log _ _ => false
  | _ => true
  end.

(** [asyncio.create_task(coro)]. *)
Definition create_task (coro : io unit) : task :=
  Pending (List.length (filter is_await (fst coro))) (snd coro).

(** One resumption of a task by the loop: it runs to its next suspension
    point, or to its end when none is left. *)
Definition resume (t : task) : task :=
  match t with
  | Pending O r => Finished r
  | Pending (Datatypes.S n) r => Pending n r
  | other => other
  end.

Fixpoint resume_nth (i : nat) (ts : list task) : list task :=
  match i, ts with
  | _, [] => []
  | O, t :: tl => resume t :: tl
  | Datatypes.S j, t :: tl => t :: resume_nth j tl
  end.

(** Where the awaiting coroutine stands. *)
Inductive main_state : Type :=
| Awaiting (k : nat)
| Returned
| Raised (e : exn).

(** [await t0; await t1; ...] from task number [k] on: a finished task gives
    its result at once, an error is raised at its [await], a pending task
    suspends the coroutine. *)
Fixpoint await_all (k : nat) (ts : list task) : main_state :=
  match ts with
  | [] => Returned
  | Finished (Ok _) :: tl => await_all (Datatypes.S k) tl
  | Finished (Raise e) :: _ => Raised e
  | Cancelled :: _ => Raised CancelledError
  | Pending _ _ :: _ => Awaiting k
  end.

(** [loop.run_until_complete(main)]: the loop resumes tasks in the order in
    which their awaited operations complete ([schedule]), until the main
    coroutine has returned or raised. *)
Fixpoint run_until_complete (ts : list task) (schedule : list nat) : list task * main_state :=
  match await_all 0 ts with
  | Awaiting k =>
      match schedule with
      | [] => (ts, Awaiting k)
      | i :: tl => run_until_complete (resume_nth i ts) tl
      end
  | done => (ts, done)
  end.

Definition cancel (t : task) : task :=
  match t with
  | Pending _ _ => Cancelled
  | other => other
  end.

(** [asyncio.run(main)]: once the main coroutine is done, every task still
    pending is cancelled before the loop is closed. *)
Definition asyncio_run (ts : list task) (schedule : list nat) : list task * main_state :=
  match run_until_complete ts schedule with
  | (ts', Awaiting k) => (ts', Awaiting k)
  | (ts', done) => (map cancel ts', done)
  end.

(** ** [DDSLoader.upload_dds_data] *)

(** The four coroutines, in the order in which the tasks are created and then
    awaited; [target] gives the store's answers to the connection that loads
    a given table. *)
Definition upload_dds_data (lineterminator : string) (target : string -> store)
           (self : DDSLoader) (t : tables) : list (io unit) :=
  [ upload_dds_table lineterminator (target (table_h_users self)) (df_users_hub t)
                     (table_h_users self) None (Some (schema self)) default_block_size;
    upload_dds_table lineterminator (target (table_h_letters self)) (df_letters_hub t)
                     (table_h_letters self) None (Some (schema self)) default_block_size;
    upload_dds_table lineterminator (target (table_s_letters self)) (df_letters_satellite t)
                     (table_s_letters self) None (Some (schema self)) default_block_size;
    upload_dds_table lineterminator (target (table_l_posts self)) (df_posts_link t)
                     (table_l_posts self) None (Some (schema self)) default_block_size ].

(** ** [config.py] and [main_dds.py] *)

Definition TARGET_DDS_TABLE_HUB_USERS : string := "h_users".
Definition TARGET_DDS_TABLE_HUB_LETTERS : string := "h_letters".
Definition TARGET_DDS_TABLE_SATELLITE_LETTERS : string := "s_letters".
Definition TARGET_DDS_TABLE_LINK_POSTS : string := "l_posts".
Definition TARGET_DDS_SCHEMA_NAME : string := "dds".

Definition dss_loader : DDSLoader :=
  mkDDS TARGET_DDS_TABLE_HUB_USERS TARGET_DDS_TABLE_HUB_LETTERS
        TARGET_DDS_TABLE_SATELLITE_LETTERS TARGET_DDS_TABLE_LINK_POSTS
        TARGET_DDS_SCHEMA_NAME.

(** The script: the staged batch is read through [stg], enriched and split,
    and only then are the four tasks created and run.  The DEBUG line that
    each static method logs on entry is emitted here, before its call. *)
Definition main_dds (lineterminator : string) (stg : store) (target : string -> store)
           (schedule : list nat) : io (list task * main_state) :=
  (logger_debug "Started loading dds data..." ;;
   data <- download_stg_data stg ;;
   logger_debug "Transforming data to df..." ;;
   let df := transform_data_to_df data in
   logger_debug "Adding hashes: user_id_hash, letter_id_hash to df..." ;;
   df <- lift (add_hashes_to_raw_data df) ;;
   logger_debug "Splitting common df to target dataframes..." ;;
   t <- lift (split_df_to_tables df) ;;
   io_ret (asyncio_run (map create_task (upload_dds_data lineterminator target dss_loader t))
                       schedule))%io.

(** ** [stg_layer/stg_loader.py] and [main_stg.py]: the staging side *)

Module Staging.

(** What [requests] can raise, and [TypeError] for [len] of a body that has
    no length. *)
Inductive http_exn : Type :=
| Timeout
| ConnectionError (msg : string)
| HTTPError (status : Z)
| JSONDecodeError (msg : string)
| TypeError (msg : string).

Inductive fetched (A : Type) : Type :=
| Fetched (a : A)
| FetchRaise (e : http_exn).

Arguments Fetched {A} a.
Arguments FetchRaise {A} e.

(** A [requests.Response]: its status code and what [response.json()] gives. *)
Record Response (B : Type) : Type := mkResponse {
  status_code : Z;
  json : fetched B }.

Arguments mkResponse {B} status_code json.
Arguments status_code {B} r.
Arguments json {B} r.

(** [response.raise_for_status()]: [HTTPError] for a client or server error
    status. *)
Definition raise_for_status {B : Type} (r : Response B) : fetched unit :=
  if (400 <=? status_code r) && (status_code r <? 600)
  then FetchRaise (HTTPError (status_code r))
  else Fetched tt.

(** [response.ok]: [raise_for_status] did not raise [HTTPError]. *)
Definition ok {B : Type} (r : Response B) : bool :=
  match raise_for_status r with
  | FetchRaise (HTTPError _) => false
  | _ => true
  end.

(** [STGLoader.download_data]; [get_answer] is what
    [requests.get(self.url, timeout=self.TIMEOUT)] gives, [len] is Python's
    [len] on a body ([None] where it raises [TypeError]).  The value is
    [None] when the function falls off its end without a [return]. *)
Definition download_data {B : Type} (len : B -> option nat) (url : string)
           (get_answer : fetched (Response B)) : list event * fetched (option B) :=
  let started := Log DEBUG ("Downloading data from: " ++ url) in
  match get_answer with
  | FetchRaise e => ([started], FetchRaise e)
  | Fetched response =>
      if ok response
      then match json response with
           | FetchRaise e => ([started], FetchRaise e)
           | Fetched result =>
               match len result with
               | None => ([started], FetchRaise (TypeError "object has no len()"))
               | Some n =>
                   ([started; Log DEBUG ("Downloaded len: " ++ py_str (Z.of_nat n))],
                    Fetched (Some result))
               end
           end
      else match raise_for_status response with
           | FetchRaise e => ([started], FetchRaise e)
           | Fetched _ => ([started], Fetched None)
           end
  end.

(** [STGLoader.transform_data_to_df]: the frame of the dicts, with the label
    [userId] renamed. *)
Definition transform_data_to_df (data : list dict) : DataFrame :=
  rename (from_dict data) [("userId", "user_id")].

(** A post of the source as the JSON body carries it. *)
Definition post_dict (r : RawRecord) : dict :=
  [ ("userId", VInt (raw_user_id r)); ("id", VInt (raw_id r));
    ("title", text_value (raw_title r)); ("body", text_value (raw_body r)) ].

Definition TARGET_URL : string := "https://jsonplaceholder.typicode.com/posts/".
Definition TARGET_STG_TABLE_NAME : string := "raw_test_data".
Definition TARGET_STG_SCHEMA_NAME : string := "stg".

Definition stg_loader : STGLoader :=
  mkSTG TARGET_URL TARGET_STG_TABLE_NAME TARGET_STG_SCHEMA_NAME.

(** How [main_stg.py] ends: the download raised, or the upload ran. *)
Inductive outcome : Type :=
| FetchFailed (e : http_exn)
| Uploaded (r : result unit).

(** [main_stg.py].  [pd.DataFrame.from_dict(None)] is the frame without rows
    and columns. *)
Definition main_stg (lineterminator : string) (get_answer : fetched (Response (list dict)))
           (db : store) : list event * outcome :=
  let started := Log DEBUG "Started loading stg data..." in
  match download_data (fun body => Some (List.length body)) (stg_url stg_loader) get_answer with
  | (t, FetchRaise e) => (started :: t, FetchFailed e)
  | (t, Fetched downloaded_data) =>
      let df := match downloaded_data with
                | Some data => transform_data_to_df data
                | None => rename (mkDF [] []) [("userId", "user_id")]
                end in
      let '(t', r) := upload_df_to_db lineterminator db stg_loader df in
      (started :: t ++ Log DEBUG "Transforming data from dict to df..." :: t', Uploaded r)
  end.

End Staging.

(** ** Observations used in the statements *)

(** A character of [0-9a-f]. *)
Definition is_lower_hex (c : ascii) : bool :=
  existsb (Ascii.eqb c) (list_ascii_of_string "0123456789abcdef").

(** The data handed to [copy.write], in order. *)
Fixpoint written (t : list event) : string :=
  match t with
  | [] => EmptyString
  | CopyWrite data :: tl => (data ++ written tl)%string
  | _ :: tl => written tl
  end.

(** The COPY commands sent. *)
Fixpoint copy_starts (t : list event) : list string :=
  match t with
  | [] => []
  | CopyStart statement :: tl => statement :: copy_starts tl
  | _ :: tl => copy_starts tl
  end.

(** The log records, with their levels. *)
Fixpoint log_records (t : list event) : list (level * string) :=
  match t with
  | [] => []
  | Log lvl msg :: tl => (lvl, msg) :: log_records tl
  | _ :: tl => log_records tl
  end.

(** The rest of a text after its first [n] characters. *)
Fixpoint drop (n : nat) (s : string) : string :=
  match n, s with
  | O, _ => s
  | _, EmptyString => EmptyString
  | Datatypes.S m, String _ tl => drop m tl
  end.

(** The rows expected of the enriched frame and of the four projections. *)
Definition enriched_row (r : RawRecord) : row :=
  [ VInt (raw_user_id r); VInt (raw_id r); text_value (raw_title r); text_value (raw_body r);
    VStr (key_hash (raw_user_id r)); VStr (key_hash (raw_id r)) ].

Definition users_hub_row (u : Z) : row := [VInt u; VStr (key_hash u)].

Definition letters_hub_row (r : RawRecord) : row :=
  [VInt (raw_id r); VStr (key_hash (raw_id r))].

Definition letters_satellite_row (r : RawRecord) : row :=
  [VStr (key_hash (raw_id r)); text_value (raw_title r); text_value (raw_body r)].

Definition posts_link_row (r : RawRecord) : row :=
  [VStr (key_hash (raw_user_id r)); VStr (key_hash (raw_id r))].

(** Sample stores: one that accepts everything, one whose table already holds
    the keys of the batch, one whose table does not exist. *)
Definition accepting_store : store :=
  mkStore None (Ok []) (fun _ => None) (fun _ _ => None) (fun _ => None).

Definition duplicate_key : exn :=
  UniqueViolation "duplicate key value violates unique constraint".

Definition loaded_store : store :=
  mkStore None (Ok []) (fun _ => None) (fun _ _ => None) (fun _ => Some duplicate_key).

Definition missing_table : exn := UndefinedTable "relation does not exist".

Definition missing_table_store : store :=
  mkStore None (Ok []) (fun _ => Some missing_table) (fun _ _ => None) (fun _ => None).

Definition sample_users_hub : DataFrame :=
  mkDF ["user_id"; "user_id_hash"] [[VInt 1; VStr "c4ca4238a0b923820dcc509a6f75849b"]].

(** A store that answers the end of the copy with the given error. *)
Definition loaded_store_with (e : exn) : store :=
  mkStore None (Ok []) (fun _ => None) (fun _ _ => None) (fun _ => Some e).

(** A store that loses the connection at the second chunk. *)
Definition failing_second_write : store :=
  mkStore None (Ok []) (fun _ => None)
          (fun k _ => if Nat.eqb k 1 then Some (OperationalError "connection lost") else None)
          (fun _ => None).

(** The two-record batch of the specification's example, and a target whose
    users hub table is missing while the other three tables accept the load. *)
Definition sample_batch : list RawRecord :=
  [ mkRaw 1 10 (Some "A") (Some "x"); mkRaw 1 11 (Some "B") (Some "y") ].

Definition staging_of (batch : list RawRecord) : store :=
  mkStore None (Ok batch) (fun _ => None) (fun _ _ => None) (fun _ => None).

Definition users_hub_missing (table_name : string) : store :=
  if String.eqb table_name TARGET_DDS_TABLE_HUB_USERS then missing_table_store
  else accepting_store.

(** The chunks handed to [copy.write], one by one. *)
Fixpoint chunks (t : list event) : list string :=
  match t with
  | [] => []
  | CopyWrite data :: tl => data :: chunks tl
  | _ :: tl => chunks tl
  end.

(** The transaction calls made on the connection, in order. *)
Fixpoint transaction_calls (t : list event) : list event :=
  match t with
  | [] => []
  | Commit :: tl => Commit :: transaction_calls tl
  | Rollback :: tl => Rollback :: transaction_calls tl
  | Close :: tl => Close :: transaction_calls tl
  | _ :: tl => transaction_calls tl
  end.

(** Every row has one cell per column. *)
Definition rectangular (df : DataFrame) : bool :=
  forallb (fun r => Nat.eqb (List.length r) (List.length (columns df))) (rows df).

(** The labels [split_df_to_tables] looks up, in the order of its lookups. *)
Definition split_labels : list string :=
  ["user_id"; "user_id_hash"; "id"; "letter_id_hash"; "title"; "body"].

(** The outcome a task carries, and the resumptions it still needs. *)
Definition outcome_of (t : task) : option (result unit) :=
  match t with
  | Pending _ r | Finished r => Some r
  | Cancelled => None
  end.

Definition resumes_needed (t : task) : nat :=
  match t with
  | Pending n _ => Datatypes.S n
  | _ => O
  end.

(** The outcome of a task, a cancelled task standing for no error of its own. *)
Definition snd_outcome (t : task) : result unit :=
  match outcome_of t with
  | Some r => r
  | None => Ok tt
  end.

(** The first error among outcomes taken in order. *)
Fixpoint first_error (rs : list (result unit)) : option exn :=
  match rs with
  | [] => None
  | Ok _ :: tl => first_error tl
  | Raise e :: _ => Some e
  end.

Definition event_eq_dec (a b : event) : {a = b} + {a <> b}.
Proof. decide equality; try apply string_dec; decide equality. Defined.

(** * Properties *)

(** ** The digest *)

Section Digest.

Lemma length_string_of_list_ascii (l : list ascii) :
  String.length (string_of_list_ascii l) = List.length l.
Proof. induction l as [|c l IH]; simpl; congruence. Qed.

Lemma length_bytes_of_word (w : Z) : List.length (MD5.bytes_of_word w) = 4%nat.
Proof. reflexivity. Qed.

Lemma length_digest (msg : list Z) : List.length (MD5.digest msg) = 16%nat.
Proof. unfold MD5.digest. rewrite !length_app, !length_bytes_of_word. reflexivity. Qed.

Lemma length_flat_map_hex (bs : list Z) :
  List.length (flat_map MD5.hex_byte bs) = (2 * List.length bs)%nat.
Proof. induction bs as [|b bs IH]; simpl in *; lia. Qed.

Lemma length_hexdigest (msg : list Z) : String.length (MD5.hexdigest msg) = 32%nat.
Proof.
  unfold MD5.hexdigest.
  rewrite length_string_of_list_ascii, length_flat_map_hex, length_digest.
  reflexivity.
Qed.

Lemma hex_digit_lower (n : Z) : is_lower_hex (MD5.hex_digit n) = true.
Proof.
  unfold MD5.hex_digit.
  assert (H : 0 <= n mod 16 < 16) by (apply Z.mod_pos_bound; lia).
  destruct (n mod 16) as [|p|p]; try reflexivity.
  do 4 (destruct p as [p|p|]; try reflexivity; try lia).
Qed.

Lemma hexdigest_lower (msg : list Z) :
  forallb is_lower_hex (list_ascii_of_string (MD5.hexdigest msg)) = true.
Proof.
  unfold MD5.hexdigest. rewrite list_ascii_of_string_of_list_ascii.
  induction (MD5.digest msg) as [|b bs IH]; simpl; [reflexivity|].
  rewrite !hex_digit_lower. exact IH.
Qed.

End Digest.

(** C2: for a business key [k] of any type with a [str()], the Key Deriver
    returns 32 characters, all of them in [0-9a-f]; the digest is that of
    the stringified key and of nothing else, so two computations on keys
    with the same [str()] text give the same digest. *)
Theorem key_hash_hex32_deterministic :
  forall (A : Type) (str : PyStr A) (k k' : A),
    String.length (key_hash k) = 32%nat
    /\ forallb is_lower_hex (list_ascii_of_string (key_hash k)) = true
    /\ key_hash k = MD5.hexdigest (encode (py_str k))
    /\ (py_str k = py_str k' -> key_hash k = key_hash k').
Proof.
  intros A str k k'. unfold key_hash.
  split; [apply length_hexdigest|].
  split; [apply hexdigest_lower|].
  split; [reflexivity|].
  intros ->. reflexivity.
Qed.

Lemma key_hash_hex32_deterministic_witness :
  py_str (VInt 1) = py_str (VStr "1")
  /\ key_hash (VInt 1) = key_hash (VStr "1")
  /\ String.length (key_hash (VInt 1)) = 32%nat.
Proof.
  destruct (key_hash_hex32_deterministic value _ (VInt 1) (VStr "1"))
    as (Hlen & _ & _ & Hdet).
  split; [reflexivity|]. split; [apply Hdet; reflexivity | exact Hlen].
Defined.

Example key_hash_of_1 : key_hash 1 = "c4ca4238a0b923820dcc509a6f75849b".
Proof. vm_compute. reflexivity. Qed.

Example key_hash_of_negative : key_hash (-7) = "74687a12d3915d3c4d83f1af7b3683d5".
Proof. vm_compute. reflexivity. Qed.

Example md5_rfc1321_empty :
  MD5.hexdigest (encode EmptyString) = "d41d8cd98f00b204e9800998ecf8427e".
Proof. vm_compute. reflexivity. Qed.

Example md5_rfc1321_abc :
  MD5.hexdigest (encode "abc") = "900150983cd24fb0d6963f7d28e17f72".
Proof. vm_compute. reflexivity. Qed.

Example md5_rfc1321_message_digest :
  MD5.hexdigest (encode "message digest") = "f96b697d7cb7938d525a2f31aaf161d0".
Proof. vm_compute. reflexivity. Qed.

Example md5_padding_spills_into_second_block :
  MD5.hexdigest (encode "aaaaaaaaaaaaaaaaaaaaaaaaaaaaaaaaaaaaaaaaaaaaaaaaaaaaaaaa")
  = "3b0c8ac703f828b04c6c197006d17218".
Proof. vm_compute. reflexivity. Qed.

(** ** Deduplication *)

Section Dedup.

Context {A K : Type}.
Variable eqb : K -> K -> bool.
Hypothesis eqb_spec : forall x y, eqb x y = true <-> x = y.

Lemma dedup_on_incl (key : A -> K) (l : list A) : incl (dedup_on eqb key l) l.
Proof.
  induction l as [|a l IH]; simpl; [easy|].
  intros x [<-|Hx]; [now left|].
  right. apply filter_In in Hx. apply IH, Hx.
Qed.

Lemma dedup_on_keys_in (key : A -> K) (l : list A) (x : A) :
  In x l -> In (key x) (map key (dedup_on eqb key l)).
Proof.
  induction l as [|a l IH]; simpl; [easy|].
  intros [->|Hx]; [now left|].
  destruct (eqb (key a) (key x)) eqn:E.
  - left. now apply eqb_spec.
  - right. specialize (IH Hx). apply in_map_iff in IH as (y & Hy & Hin).
    apply in_map_iff. exists y. split; [exact Hy|].
    apply filter_In. split; [exact Hin|]. now rewrite Hy, E.
Qed.

Lemma dedup_on_keys_NoDup (key : A -> K) (l : list A) :
  NoDup (map key (dedup_on eqb key l)).
Proof.
  induction l as [|a l IH]; simpl; constructor.
  - intros Hin. apply in_map_iff in Hin as (y & Hy & Hin).
    apply filter_In in Hin as [_ Hne].
    assert (E : eqb (key a) (key y) = true) by now apply eqb_spec.
    now rewrite E in Hne.
  - clear -IH. induction (dedup_on eqb key l) as [|y ys IHy]; simpl; [constructor|].
    inversion IH; subst.
    destruct (eqb (key a) (key y)); simpl; [now apply IHy|].
    constructor; [|now apply IHy].
    intros Hin. apply in_map_iff in Hin as (z & Hz & Hin).
    apply filter_In in Hin as [Hin _].
    apply H1, in_map_iff. now exists z.
Qed.

End Dedup.

Lemma filter_map_comm {A B : Type} (f : A -> B) (p : B -> bool) (l : list A) :
  filter p (map f l) = map f (filter (fun a => p (f a)) l).
Proof.
  induction l as [|a l IH]; simpl; [reflexivity|].
  destruct (p (f a)); simpl; now rewrite IH.
Qed.

Lemma dedup_on_map {A B K : Type} (eqb : K -> K -> bool) (key : B -> K) (f : A -> B)
      (l : list A) :
  dedup_on eqb key (map f l) = map f (dedup_on eqb (fun a => key (f a)) l).
Proof.
  induction l as [|a l IH]; simpl; [reflexivity|].
  now rewrite IH, filter_map_comm.
Qed.

Lemma dedup_on_ext {A K K' : Type} (eqb : K -> K -> bool) (eqb' : K' -> K' -> bool)
      (key : A -> K) (key' : A -> K') (l : list A) :
  (forall x y, eqb (key x) (key y) = eqb' (key' x) (key' y)) ->
  dedup_on eqb key l = dedup_on eqb' key' l.
Proof.
  intros Hext. induction l as [|a l IH]; simpl; [reflexivity|].
  rewrite IH. f_equal. apply filter_ext. intros y. now rewrite Hext.
Qed.

Lemma combine_map_same {A B C : Type} (f : A -> B) (g : A -> C) (l : list A) :
  combine (map f l) (map g l) = map (fun x => (f x, g x)) l.
Proof. induction l as [|a l IH]; simpl; [reflexivity | now rewrite IH]. Qed.

(** ** Key Deriver and Table Projector on a staged frame *)

Arguments key_hash : simpl never.

Lemma add_hashes_staged (batch : list RawRecord) :
  add_hashes_to_raw_data (staged_frame batch)
  = Ok (mkDF ["user_id"; "id"; "title"; "body"; "user_id_hash"; "letter_id_hash"]
             (map enriched_row batch)).
Proof.
  unfold add_hashes_to_raw_data, staged_frame, getitem, setitem, apply. cbn.
  do 2 f_equal.
  induction batch as [|r batch IH]; cbn; [reflexivity|].
  f_equal. exact IH.
Qed.

(** Rows of the users hub are equal exactly when their business keys are:
    the hash column is a function of the key column. *)
Lemma users_hub_row_eqb (x y : Z) : row_eqb (users_hub_row x) (users_hub_row y) = Z.eqb x y.
Proof.
  unfold row_eqb, users_hub_row.
  destruct (row_eq_dec _ _) as [E|N]; destruct (Z.eqb_spec x y) as [Exy|Nxy];
    try reflexivity.
  - exfalso. apply Nxy. now injection E.
  - exfalso. apply N. now rewrite Exy.
Qed.

Lemma dedup_users_hub_rows (us : list Z) :
  dedup_on row_eqb (fun r => r) (map users_hub_row us)
  = map users_hub_row (dedup_on Z.eqb (fun u => u) us).
Proof.
  rewrite dedup_on_map. f_equal.
  apply dedup_on_ext. intros x y. apply users_hub_row_eqb.
Qed.

Lemma split_enriched (batch : list RawRecord) :
  split_df_to_tables
    (mkDF ["user_id"; "id"; "title"; "body"; "user_id_hash"; "letter_id_hash"]
          (map enriched_row batch))
  = Ok (mkTables
          (mkDF ["user_id"; "user_id_hash"]
                (map users_hub_row (dedup_on Z.eqb (fun u => u) (map raw_user_id batch))))
          (mkDF ["letter_id"; "letter_id_hash"] (map letters_hub_row batch))
          (mkDF ["letter_id_hash"; "title"; "body"] (map letters_satellite_row batch))
          (mkDF ["user_id_hash"; "letter_id_hash"] (map posts_link_row batch))).
Proof.
  unfold split_df_to_tables, getitem_list, drop_duplicates, rename. cbn.
  rewrite <- dedup_users_hub_rows.
  rewrite !List.map_map. reflexivity.
Qed.

Lemma enrich_and_split_staged (batch : list RawRecord) :
  enrich_and_split (staged_frame batch)
  = Ok (mkTables
          (mkDF ["user_id"; "user_id_hash"]
                (map users_hub_row (dedup_on Z.eqb (fun u => u) (map raw_user_id batch))))
          (mkDF ["letter_id"; "letter_id_hash"] (map letters_hub_row batch))
          (mkDF ["letter_id_hash"; "title"; "body"] (map letters_satellite_row batch))
          (mkDF ["user_id_hash"; "letter_id_hash"] (map posts_link_row batch))).
Proof.
  unfold enrich_and_split. rewrite add_hashes_staged. cbn [bind].
  apply split_enriched.
Qed.

Lemma dict_row_keys (batch : list RawRecord) :
  Forall (fun k => In k ["user_id"; "id"; "title"; "body"])
         (dedup_on String.eqb (fun k => k) (flat_map (map fst) (map dict_row batch))).
Proof.
  apply Forall_forall. intros k Hk.
  apply dedup_on_incl in Hk. apply in_flat_map in Hk as (d & Hd & Hk).
  apply in_map_iff in Hd as (r & <- & _). exact Hk.
Qed.

(** What [main_dds.py] builds from a batch that is not empty is the staged
    frame. *)
Lemma transform_staged (batch : list RawRecord) :
  batch <> [] -> transform_data_to_df (map dict_row batch) = staged_frame batch.
Proof.
  destruct batch as [|r batch]; [congruence|]. intros _.
  unfold transform_data_to_df, from_dict, staged_frame.
  assert (Hcols : dedup_on String.eqb (fun k => k) (flat_map (map fst) (map dict_row (r :: batch)))
                  = ["user_id"; "id"; "title"; "body"]).
  { cbn. do 4 f_equal.
    induction (dict_row_keys batch) as [|k ks Hk _ IH]; [reflexivity|].
    destruct Hk as [<-|[<-|[<-|[<-|[]]]]]; cbn; exact IH. }
  rewrite Hcols. f_equal. rewrite List.map_map. reflexivity.
Qed.

(** C1: on every staged frame, enrichment and projection succeed and the
    users hub has exactly one row per distinct [user_id] of the batch: its
    [user_id] column lists the distinct keys without repetition, it has as
    many rows as there are distinct keys, and deduplicating the projection on
    the pair of columns is deduplicating it on [user_id] alone. *)
Theorem users_hub_one_row_per_user_id :
  forall batch : list RawRecord,
  exists (t : tables) (users : list Z) (projection : DataFrame),
    enrich_and_split (staged_frame batch) = Ok t
    /\ getitem (df_users_hub t) "user_id" = Ok (map VInt users)
    /\ NoDup users
    /\ (forall u, In u users <-> In u (map raw_user_id batch))
    /\ List.length (rows (df_users_hub t))
       = List.length (nodup Z.eq_dec (map raw_user_id batch))
    /\ (df' <- add_hashes_to_raw_data (staged_frame batch) ;;
        getitem_list df' ["user_id"; "user_id_hash"])%result = Ok projection
    /\ df_users_hub t = drop_duplicates projection
    /\ drop_duplicates_subset projection "user_id" = Ok (drop_duplicates projection).
Proof.
  intros batch.
  set (us := map raw_user_id batch).
  set (users := dedup_on Z.eqb (fun u => u) us).
  assert (Hnd : NoDup users).
  { pose proof (dedup_on_keys_NoDup Z.eqb Z.eqb_eq (fun u : Z => u) us) as H.
    now rewrite map_id in H. }
  assert (Hin : forall u, In u users <-> In u us).
  { intros u. split.
    - apply dedup_on_incl.
    - intros H. apply (dedup_on_keys_in Z.eqb Z.eqb_eq (fun u : Z => u)) in H.
      now rewrite map_id in H. }
  eexists. exists users.
  exists (mkDF ["user_id"; "user_id_hash"] (map users_hub_row us)).
  split; [apply enrich_and_split_staged|].
  split.
  { unfold getitem. cbn. now rewrite !List.map_map. }
  split; [exact Hnd|]. split; [exact Hin|]. split.
  { cbn. rewrite length_map. fold us. fold users.
    apply Nat.le_antisymm; apply NoDup_incl_length;
      try assumption; try apply NoDup_nodup;
      intros u Hu; [apply nodup_In, Hin, Hu | apply Hin; eapply nodup_In, Hu]. }
  split.
  { rewrite add_hashes_staged. cbn. unfold us. now rewrite !List.map_map. }
  split.
  { unfold drop_duplicates. cbn. now rewrite dedup_users_hub_rows. }
  unfold drop_duplicates_subset, drop_duplicates. cbn. do 2 f_equal.
  rewrite !dedup_on_map. f_equal. apply dedup_on_ext. intros x y.
  rewrite users_hub_row_eqb. cbn [users_hub_row nth].
  destruct (value_eq_dec (VInt x) (VInt y)) as [E|N]; destruct (Z.eqb_spec x y);
    congruence.
Qed.

Example users_hub_of_the_spec_example :
  let batch := [ mkRaw 1 10 (Some "A") (Some "x"); mkRaw 1 11 (Some "B") (Some "y") ] in
  enrich_and_split (transform_data_to_df (map dict_row batch))
  = Ok (mkTables
          (mkDF ["user_id"; "user_id_hash"] [[VInt 1; VStr "c4ca4238a0b923820dcc509a6f75849b"]])
          (mkDF ["letter_id"; "letter_id_hash"]
                [[VInt 10; VStr "d3d9446802a44259755d38e6d163e820"];
                 [VInt 11; VStr "6512bd43d9caa6e02c990b0a82652dca"]])
          (mkDF ["letter_id_hash"; "title"; "body"]
                [[VStr "d3d9446802a44259755d38e6d163e820"; VStr "A"; VStr "x"];
                 [VStr "6512bd43d9caa6e02c990b0a82652dca"; VStr "B"; VStr "y"]])
          (mkDF ["user_id_hash"; "letter_id_hash"]
                [[VStr "c4ca4238a0b923820dcc509a6f75849b"; VStr "d3d9446802a44259755d38e6d163e820"];
                 [VStr "c4ca4238a0b923820dcc509a6f75849b"; VStr "6512bd43d9caa6e02c990b0a82652dca"]])).
Proof. vm_compute. reflexivity. Qed.

Lemma users_hub_one_row_per_user_id_witness :
  exists (t : tables) (users : list Z),
    enrich_and_split
      (staged_frame [ mkRaw 1 10 (Some "A") (Some "x"); mkRaw 2 11 None None;
                      mkRaw 1 12 (Some "B") (Some "y") ]) = Ok t
    /\ getitem (df_users_hub t) "user_id" = Ok (map VInt users)
    /\ (In 2 users <-> In 2 [1; 2; 1])
    /\ List.length (rows (df_users_hub t)) = 2%nat.
Proof.
  destruct (users_hub_one_row_per_user_id
              [ mkRaw 1 10 (Some "A") (Some "x"); mkRaw 2 11 None None;
                mkRaw 1 12 (Some "B") (Some "y") ])
    as (t & users & _ & Hrun & Hcol & _ & Hin & Hlen & _).
  exists t, users. split; [exact Hrun|]. split; [exact Hcol|].
  split; [exact (Hin 2)|]. rewrite Hlen. reflexivity.
Defined.

(** C3: on every staged frame of [n] records, the letters hub, the letters
    satellite and the posts link have [n] rows, one per record and in the
    order of the records; the users hub alone is deduplicated and has at most
    [n] rows. *)
Theorem one_row_per_record_outside_users_hub :
  forall batch : list RawRecord,
  exists t : tables,
    enrich_and_split (staged_frame batch) = Ok t
    /\ rows (df_letters_hub t) = map letters_hub_row batch
    /\ rows (df_letters_satellite t) = map letters_satellite_row batch
    /\ rows (df_posts_link t) = map posts_link_row batch
    /\ List.length (rows (df_letters_hub t)) = List.length batch
    /\ List.length (rows (df_letters_satellite t)) = List.length batch
    /\ List.length (rows (df_posts_link t)) = List.length batch
    /\ (List.length (rows (df_users_hub t)) <= List.length batch)%nat.
Proof.
  intros batch. eexists. split; [apply enrich_and_split_staged|]. cbn.
  rewrite !length_map.
  repeat (split; [reflexivity|]).
  rewrite <- (length_map raw_user_id batch).
  apply NoDup_incl_length.
  - pose proof (dedup_on_keys_NoDup Z.eqb Z.eqb_eq (fun u : Z => u) (map raw_user_id batch)) as H.
    now rewrite map_id in H.
  - apply dedup_on_incl.
Qed.

(** A repeated item identifier is kept twice in the letters hub, while the
    repeated user identifier is kept once in the users hub. *)
Example letters_hub_keeps_repeated_ids :
  exists t : tables,
    enrich_and_split (staged_frame [ mkRaw 1 10 (Some "A") None; mkRaw 1 10 (Some "A") None ])
    = Ok t
    /\ List.length (rows (df_letters_hub t)) = 2%nat
    /\ List.length (rows (df_users_hub t)) = 1%nat.
Proof. eexists. split; [vm_compute; reflexivity|]. split; reflexivity. Qed.

(** C10: both hash columns come from the one function of the stringified
    identifier: two cells with the same [str()] text have the same hash, and
    in the enriched frame a record whose [user_id] and [id] have the same
    text carries the same value in [user_id_hash] and in [letter_id_hash]. *)
Theorem same_text_same_hash_in_both_columns :
  forall (batch : list RawRecord) (i : nat) (r : RawRecord),
    nth_error batch i = Some r ->
    py_str (raw_user_id r) = py_str (raw_id r) ->
    hash_cell (VInt (raw_user_id r)) = hash_cell (VInt (raw_id r))
    /\ exists (df' : DataFrame) (users letters : Series),
         add_hashes_to_raw_data (staged_frame batch) = Ok df'
         /\ getitem df' "user_id_hash" = Ok users
         /\ getitem df' "letter_id_hash" = Ok letters
         /\ nth_error users i = Some (VStr (key_hash (raw_user_id r)))
         /\ nth_error letters i = nth_error users i.
Proof.
  intros batch i r Hi Hstr.
  assert (Hk : key_hash (raw_user_id r) = key_hash (raw_id r)).
  { unfold key_hash. now rewrite Hstr. }
  split.
  { unfold hash_cell. f_equal. exact Hk. }
  eexists. eexists. eexists.
  split; [apply add_hashes_staged|].
  unfold getitem. cbn.
  split; [reflexivity|]. split; [reflexivity|].
  rewrite !List.map_map. cbn.
  rewrite !nth_error_map, Hi. cbn. split; [reflexivity|]. now rewrite Hk.
Qed.

Lemma same_text_same_hash_in_both_columns_witness :
  hash_cell (VInt 7) = hash_cell (VInt 7)
  /\ exists (df' : DataFrame) (users letters : Series),
       add_hashes_to_raw_data (staged_frame [mkRaw 3 4 None None; mkRaw 7 7 None None]) = Ok df'
       /\ getitem df' "user_id_hash" = Ok users
       /\ getitem df' "letter_id_hash" = Ok letters
       /\ nth_error users 1 = Some (VStr (key_hash 7))
       /\ nth_error letters 1 = nth_error users 1.
Proof.
  apply (same_text_same_hash_in_both_columns
           [mkRaw 3 4 None None; mkRaw 7 7 None None] 1 (mkRaw 7 7 None None));
    reflexivity.
Defined.

(** The user 10 and the letter 10 share one digest. *)
Example user_and_letter_hash_collide :
  exists t : tables,
    enrich_and_split (staged_frame [mkRaw 10 3 None None; mkRaw 4 10 None None]) = Ok t
    /\ nth 0 (rows (df_users_hub t)) [] = [VInt 10; VStr "d3d9446802a44259755d38e6d163e820"]
    /\ nth 1 (rows (df_letters_hub t)) [] = [VInt 10; VStr "d3d9446802a44259755d38e6d163e820"].
Proof. eexists. split; [vm_compute; reflexivity|]. split; reflexivity. Qed.

(** ** The empty batch *)

(** C5: when the staging table is empty, [fetchall] returns the empty list,
    [transform_data_to_df] builds a frame without columns, and
    [add_hashes_to_raw_data] raises [KeyError] on its first column lookup:
    the script ends there, after the staging connection was committed and
    closed, and creates no load task. *)
Theorem empty_batch_raises_KeyError :
  forall (lineterminator : string) (target : string -> store) (schedule : list nat),
    transform_data_to_df (map dict_row []) = mkDF [] []
    /\ add_hashes_to_raw_data (transform_data_to_df (map dict_row []))
       = Raise (KeyError "user_id")
    /\ enrich_and_split (transform_data_to_df (map dict_row [])) = Raise (KeyError "user_id")
    /\ main_dds lineterminator
                (mkStore None (Ok []) (fun _ => None) (fun _ _ => None) (fun _ => None))
                target schedule
       = ([ Log DEBUG "Started loading dds data...";
            Connect; Log DEBUG "Downloading data from raw_test_data table...";
            Execute select_raw; Commit; Close;
            Log DEBUG "Transforming data to df...";
            Log DEBUG "Adding hashes: user_id_hash, letter_id_hash to df..." ],
          Raise (KeyError "user_id")).
Proof. intros. repeat split. Qed.

(** A frame without rows that still carries the staging columns is enriched
    and split into four frames without rows. *)
Lemma empty_frame_with_columns_splits :
  enrich_and_split (staged_frame [])
  = Ok (mkTables (mkDF ["user_id"; "user_id_hash"] [])
                 (mkDF ["letter_id"; "letter_id_hash"] [])
                 (mkDF ["letter_id_hash"; "title"; "body"] [])
                 (mkDF ["user_id_hash"; "letter_id_hash"] [])).
Proof. reflexivity. Qed.

(** ** Texts, buffers and traces *)

Section Texts.

Lemma substring_all (s : string) : substring 0 (String.length s) s = s.
Proof. induction s as [|c s IH]; simpl; [reflexivity | now rewrite IH]. Qed.

Lemma substring_to_end (s : string) (n : nat) :
  substring n (String.length s - n) s = drop n s.
Proof.
  revert n. induction s as [|c s IH]; intros [|n]; simpl; try reflexivity.
  - now rewrite substring_all.
  - apply IH.
Qed.

Lemma take_drop (s : string) (n : nat) :
  (substring 0 n s ++ drop (String.length (substring 0 n s)) s)%string = s.
Proof.
  revert n. induction s as [|c s IH]; intros [|n]; simpl; try reflexivity.
  now rewrite IH.
Qed.

Lemma drop_add (s : string) (a b : nat) : drop (a + b) s = drop b (drop a s).
Proof.
  revert a. induction s as [|c s IH]; intros [|a]; simpl; try reflexivity.
  - now destruct b.
  - apply IH.
Qed.

Lemma take_empty (s : string) (n : nat) :
  (0 < n)%nat -> substring 0 n s = EmptyString -> s = EmptyString.
Proof. destruct s, n; simpl; intros; (reflexivity || lia || discriminate). Qed.

Lemma string_app_empty_r (s : string) : (s ++ EmptyString)%string = s.
Proof. induction s as [|c s IH]; simpl; [reflexivity | now rewrite IH]. Qed.

Lemma string_app_assoc (a b c : string) : ((a ++ b) ++ c = a ++ (b ++ c))%string.
Proof. induction a as [|x a IH]; simpl; [reflexivity | now rewrite IH]. Qed.

End Texts.

Lemma remaining_drop (buf : StringIO) : remaining buf = drop (tell buf) (getvalue buf).
Proof. apply substring_to_end. Qed.

(** A read of positive size returns a prefix of what is left and leaves the
    rest; it is empty only at the end of the buffer. *)
Lemma read_positive (buf : StringIO) (size : Z) :
  0 < size ->
  (fst (read buf size) ++ remaining (snd (read buf size)))%string = remaining buf
  /\ (fst (read buf size) = EmptyString -> remaining buf = EmptyString).
Proof.
  intros Hpos. unfold read.
  destruct (Z.ltb_spec size 0) as [Hneg|_]; [lia|]. cbn [fst snd].
  split.
  - rewrite (remaining_drop (mkIO _ _)). cbn [getvalue tell].
    rewrite drop_add, <- remaining_drop. apply take_drop.
  - apply take_empty. lia.
Qed.

Lemma written_app (t t' : list event) : written (t ++ t') = (written t ++ written t')%string.
Proof.
  induction t as [|ev t IH]; simpl; [reflexivity|].
  destruct ev; try exact IH. now rewrite IH, string_app_assoc.
Qed.

Lemma copy_starts_app (t t' : list event) :
  copy_starts (t ++ t') = copy_starts t ++ copy_starts t'.
Proof.
  induction t as [|ev t IH]; simpl; [reflexivity|].
  destruct ev; try exact IH. simpl. now rewrite IH.
Qed.

Lemma log_records_app (t t' : list event) :
  log_records (t ++ t') = log_records t ++ log_records t'.
Proof.
  induction t as [|ev t IH]; simpl; [reflexivity|].
  destruct ev; try exact IH. simpl. now rewrite IH.
Qed.

(** ** The copy loop *)

(** Whatever the store answers, the loop only writes. *)
Lemma copy_loop_only_writes (db : store) (k : nat) (buf : StringIO) (block_size : Z) :
  copy_starts (fst (copy_loop db k buf block_size)) = []
  /\ log_records (fst (copy_loop db k buf block_size)) = []
  /\ Forall (fun ev => exists data, ev = CopyWrite data) (fst (copy_loop db k buf block_size)).
Proof.
  funelim (copy_loop db k buf block_size).
  - repeat split; constructor.
  - unfold io_bind, call.
    destruct (copy_write_answer db k (fst (read buf block_size))) as [e|].
    + repeat split. repeat constructor. eexists; reflexivity.
    + destruct (copy_loop db (Datatypes.S k) (snd (read buf block_size)) block_size)
        as [t r] eqn:E.
      specialize (H tt). cbn [fst] in H. destruct H as (H1 & H2 & H3). cbn.
      repeat split; try assumption. constructor; [eexists; reflexivity | assumption].
Qed.

(** With a positive block size and a store that accepts every chunk, the
    loop ends normally and the chunks written make up what was left in the
    buffer. *)
Lemma copy_loop_writes_all (db : store) (k : nat) (buf : StringIO) (block_size : Z) :
  0 < block_size ->
  (forall j data, copy_write_answer db j data = None) ->
  snd (copy_loop db k buf block_size) = Ok tt
  /\ written (fst (copy_loop db k buf block_size)) = remaining buf.
Proof.
  intros Hpos Hacc.
  funelim (copy_loop db k buf block_size).
  - split; [reflexivity|]. symmetry. now apply (read_positive buf block_size).
  - unfold io_bind, call. rewrite Hacc.
    destruct (copy_loop db (Datatypes.S k) (snd (read buf block_size)) block_size)
      as [t r] eqn:E.
    specialize (H tt Hpos Hacc). cbn [fst snd] in H. destruct H as [Hr Hw]. cbn [fst snd app written].
    split; [exact Hr|].
    rewrite Hw. now apply read_positive.
Qed.

(** ** Observations through the combinators *)

Lemma fresh_buffer (text : string) :
  remaining (seek (write StringIO_new text) 0) = text.
Proof. rewrite remaining_drop. reflexivity. Qed.

(** Case analysis on every answer and outcome met in the goal. *)
Ltac io_cases :=
  repeat match goal with
         | |- context [match ?x with _ => _ end] =>
             match type of x with
             | option exn => destruct x eqn:?
             | bool => destruct x eqn:?
             end
         end.

(** Push an observation through the concatenations of a trace. *)
Ltac through distributes :=
  cbn; rewrite ?distributes; cbn; rewrite ?distributes, ?app_nil_r; cbn.

Section Combinators.

Variable db : store.

Lemma written_copy_block (statement : string) (body : io unit) :
  copy_start_answer db statement = None ->
  written (fst (copy_block db statement body)) = written (fst body).
Proof.
  intros Hstart. unfold copy_block, io_bind, call. rewrite Hstart.
  destruct body as [t [[]|e]]; cbn; io_cases; cbn;
    through written_app; rewrite ?string_app_empty_r; reflexivity.
Qed.

Lemma copy_starts_copy_block (statement : string) (body : io unit) :
  copy_starts (fst body) = [] ->
  copy_starts (fst (copy_block db statement body)) = [statement].
Proof.
  unfold copy_block, io_bind, call.
  destruct body as [t [[]|e]]; cbn; intros Hnone; io_cases; cbn;
    through copy_starts_app; now rewrite ?Hnone.
Qed.

Lemma log_records_copy_block (statement : string) (body : io unit) :
  log_records (fst body) = [] -> log_records (fst (copy_block db statement body)) = [].
Proof.
  unfold copy_block, io_bind, call.
  destruct body as [t [[]|e]]; cbn; intros Hlog; io_cases; cbn;
    through log_records_app; now rewrite ?Hlog.
Qed.

Lemma written_connection_block {A : Type} (body : io A) :
  written (fst (connection_block body)) = written (fst body).
Proof.
  destruct body as [t [a|e]]; through written_app; rewrite ?string_app_empty_r; reflexivity.
Qed.


Lemma log_records_connection_block {A : Type} (body : io A) :
  log_records (fst (connection_block body)) = log_records (fst body).
Proof.
  destruct body as [t [a|e]]; through log_records_app; reflexivity.
Qed.

(** The handler of both loaders only logs. *)
Lemma written_try_except (body : io unit) :
  written (fst (try_except body is_UniqueViolation
                           (fun e => logger_error (duplicate_message e))))
  = written (fst body).
Proof.
  destruct body as [t [[]|e]]; cbn; [reflexivity|].
  destruct (is_UniqueViolation e); through written_app; rewrite ?string_app_empty_r; reflexivity.
Qed.

Lemma copy_starts_try_except (body : io unit) :
  copy_starts (fst (try_except body is_UniqueViolation
                               (fun e => logger_error (duplicate_message e))))
  = copy_starts (fst body).
Proof.
  destruct body as [t [[]|e]]; cbn; [reflexivity|].
  destruct (is_UniqueViolation e); through copy_starts_app; reflexivity.
Qed.

End Combinators.

Lemma fst_bind_ok {A B : Type} (t : list event) (a : A) (k : A -> io B) :
  fst (io_bind (t, Ok a) k) = t ++ fst (k a).
Proof. unfold io_bind. now destruct (k a). Qed.

Lemma snd_bind_ok {A B : Type} (t : list event) (a : A) (k : A -> io B) :
  snd (io_bind (t, Ok a) k) = snd (k a).
Proof. unfold io_bind. now destruct (k a). Qed.

Lemma bind_raise {A B : Type} (t : list event) (e : exn) (k : A -> io B) :
  io_bind (t, Raise e) k = (t, Raise e).
Proof. reflexivity. Qed.

Create Rewrite HintDb trace.
#[local] Hint Rewrite @fst_bind_ok @snd_bind_ok @bind_raise : trace.

(** ** Chunked transfer *)

(** C8: for every frame and every positive block size, when the store
    accepts the connection, the COPY command and every chunk, the chunks
    written to the copy stream, put end to end, are the whole text that
    [to_csv] produced; this holds for the DDS loader and for the staging
    loader alike, so two block sizes transfer the same data. *)
Theorem chunks_concatenate_to_serialization :
  forall (lineterminator : string) (db : store) (df : DataFrame) (table_name : string)
         (cols : option (list string)) (schema : option string) (block_size : Z),
    0 < block_size ->
    connect_answer db = None ->
    (forall statement, copy_start_answer db statement = None) ->
    (forall k data, copy_write_answer db k data = None) ->
    written (fst (upload_dds_table lineterminator db df table_name cols schema block_size))
    = to_csv lineterminator df
    /\ written (fst (copy_df lineterminator db df table_name cols schema block_size))
       = to_csv lineterminator df.
Proof.
  intros lt db df table_name cols schema block_size Hpos Hconn Hstart Hwrite.
  assert (Hloop : written (fst (copy_loop db 0 (seek (write StringIO_new (to_csv lt df)) 0)
                                          block_size)) = to_csv lt df).
  { destruct (copy_loop_writes_all db 0 (seek (write StringIO_new (to_csv lt df)) 0)
                                   block_size Hpos Hwrite) as [_ ->].
    apply fresh_buffer. }
  split.
  - unfold upload_dds_table. rewrite written_try_except.
    unfold upload_dds_attempt, call, logger_debug, emit. rewrite Hconn.
    autorewrite with trace. rewrite ?written_app. cbn [written app].
    rewrite written_connection_block.
    autorewrite with trace. rewrite ?written_app. cbn [written app].
    rewrite written_copy_block by apply Hstart. exact Hloop.
  - unfold copy_df. rewrite written_copy_block by apply Hstart. exact Hloop.
Qed.

Lemma chunks_concatenate_to_serialization_witness :
  let df := mkDF ["letter_id"; "letter_id_hash"]
                 [[VInt 10; VStr "d3d9446802a44259755d38e6d163e820"];
                  [VInt 11; VStr "6512bd43d9caa6e02c990b0a82652dca"]] in
  0 < 7
  /\ written (fst (upload_dds_table newline accepting_store df "h_letters" None (Some "dds") 7))
     = to_csv newline df
  /\ written (fst (copy_df newline accepting_store df "h_letters" None (Some "dds") 7))
     = to_csv newline df.
Proof.
  intros df. split; [lia|].
  apply (chunks_concatenate_to_serialization newline accepting_store df "h_letters"
                                             None (Some "dds") 7);
    [lia | reflexivity | reflexivity | reflexivity].
Defined.

(** Block size 7 cuts the 72 characters of two hub rows into eleven chunks. *)
Example chunks_of_seven_characters :
  fst (copy_df newline accepting_store
               (mkDF ["letter_id"; "letter_id_hash"]
                     [[VInt 10; VStr "d3d9446802a44259755d38e6d163e820"];
                      [VInt 11; VStr "6512bd43d9caa6e02c990b0a82652dca"]])
               "h_letters" None (Some "dds") 7)
  = [ CopyStart (copy_statement 12 "dds.h_letters"
                                (dquote ++ "letter_id" ++ dquote ++ ","
                                 ++ dquote ++ "letter_id_hash" ++ dquote)%string);
      CopyWrite "10,d3d9"; CopyWrite "446802a"; CopyWrite "4425975"; CopyWrite "5d38e6d";
      CopyWrite "163e820"; CopyWrite (newline ++ "11,651")%string;
      CopyWrite "2bd43d9"; CopyWrite "caa6e02"; CopyWrite "c990b0a"; CopyWrite "82652dc";
      CopyWrite ("a" ++ newline)%string;
      CopyFinish ].
Proof. vm_compute. reflexivity. Qed.

(** ** The wire contract of a load *)


(** The letters hub of the two-record example: the records carry no header,
    and the command names the renamed key column. *)
Example letters_hub_on_the_wire :
  let df := mkDF ["letter_id"; "letter_id_hash"]
                 [[VInt 10; VStr "d3d9446802a44259755d38e6d163e820"];
                  [VInt 11; VStr "6512bd43d9caa6e02c990b0a82652dca"]] in
  fst (upload_dds_table newline accepting_store df "h_letters" None (Some "dds")
                        default_block_size)
  = [ Connect;
      Log DEBUG "Uploading df into table: dds.h_letters...";
      CopyStart (newline ++ spaces 24 ++ "COPY dds.h_letters ("
                 ++ dquote ++ "letter_id" ++ dquote ++ ","
                 ++ dquote ++ "letter_id_hash" ++ dquote ++ ")"
                 ++ newline ++ spaces 24 ++ "FROM STDIN WITH (FORMAT CSV, NULL '\N')"
                 ++ newline ++ spaces 20)%string;
      CopyWrite ("10,d3d9446802a44259755d38e6d163e820" ++ newline
                 ++ "11,6512bd43d9caa6e02c990b0a82652dca" ++ newline)%string;
      CopyFinish; Commit; Close ].
Proof. vm_compute. reflexivity. Qed.

(** Nulls, and a text that needs quoting, in a satellite row. *)
Example satellite_row_with_null :
  csv_row newline [VStr "6512bd43d9caa6e02c990b0a82652dca"; VStr "B, or b"; VNone]
  = ("6512bd43d9caa6e02c990b0a82652dca," ++ dquote ++ "B, or b" ++ dquote ++ ",\N"
     ++ newline)%string.
Proof. vm_compute. reflexivity. Qed.

(** ** Errors of a load *)

(** The DDS attempt logs one DEBUG record once connected, and nothing else. *)
Lemma log_records_upload_dds_attempt
      (lt : string) (db : store) (df : DataFrame) (table_name : string)
      (cols : option (list string)) (schema : option string) (block_size : Z) :
  Forall (fun r => fst r = DEBUG)
         (log_records (fst (upload_dds_attempt lt db df table_name cols schema block_size))).
Proof.
  unfold upload_dds_attempt, call, logger_debug, emit.
  destruct (connect_answer db) as [e|]; [constructor|].
  autorewrite with trace. rewrite ?log_records_app. cbn [log_records app].
  rewrite log_records_connection_block.
  autorewrite with trace. rewrite ?log_records_app. cbn [log_records app].
  rewrite log_records_copy_block by apply copy_loop_only_writes.
  repeat constructor.
Qed.

(** An error of the loop is an answer of the store to a write. *)
Lemma copy_loop_raises (db : store) (k : nat) (buf : StringIO) (block_size : Z) (e : exn) :
  snd (copy_loop db k buf block_size) = Raise e ->
  exists j data, copy_write_answer db j data = Some e.
Proof.
  funelim (copy_loop db k buf block_size); [discriminate|].
  unfold io_bind, call.
  destruct (copy_write_answer db k (fst (read buf block_size))) as [e'|] eqn:Hw.
  - cbn. intros [= ->]. eauto.
  - specialize (H tt e).
    destruct (copy_loop db (Datatypes.S k) (snd (read buf block_size)) block_size) as [t r].
    cbn in *. exact H.
Qed.

(** An error of the DDS attempt is an answer of the store to one of the
    calls of the load: nothing else in the attempt raises. *)
Lemma upload_dds_attempt_raises_store_answer
      (lt : string) (db : store) (df : DataFrame) (table_name : string)
      (cols : option (list string)) (schema : option string) (block_size : Z) (e : exn) :
  snd (upload_dds_attempt lt db df table_name cols schema block_size) = Raise e ->
  connect_answer db = Some e
  \/ copy_start_answer db (copy_statement 24 (table_path schema table_name)
                                          (columns_clause cols df)) = Some e
  \/ (exists j data, copy_write_answer db j data = Some e)
  \/ copy_finish_answer db (copy_statement 24 (table_path schema table_name)
                                           (columns_clause cols df)) = Some e.
Proof.
  unfold upload_dds_attempt, connection_block, copy_block, call, logger_debug, emit, io_bind.
  destruct (connect_answer db) as [e0|]; [cbn; intros [= ->]; now left|].
  destruct (copy_start_answer db _) as [e1|] eqn:Hstart;
    [cbn; intros [= ->]; right; now left|].
  pose proof (copy_loop_raises db 0 (seek (write StringIO_new (to_csv lt df)) 0) block_size e)
    as Hloop.
  destruct (copy_loop db 0 (seek (write StringIO_new (to_csv lt df)) 0) block_size)
    as [t [[]|e2]]; cbn in *.
  - destruct (copy_finish_answer db _) as [e3|] eqn:Hfinish; cbn; [|discriminate].
    intros [= ->]. now do 3 right.
  - intros [= ->]. right. right. left. now apply Hloop.
Qed.

(** C4 (as the code has it): when the attempt of a DDS load ends with an
    error [e] raised by the store, then, if [e] is a uniqueness violation,
    the load returns normally after adding one record of level ERROR to the
    log, with no further call to the store, all the other records being of
    level DEBUG; and if [e] is any other error the load raises [e] and adds
    nothing.  The staging load behaves alike inside [with_connection]: a
    uniqueness violation is logged at level ERROR and the load returns
    normally; any other error is raised to the caller. *)
Theorem duplicate_logged_as_error_others_propagate :
  forall (lt : string) (db : store) (df : DataFrame) (table_name : string)
         (cols : option (list string)) (schema : option string) (block_size : Z)
         (self : STGLoader) (e : exn),
    (snd (upload_dds_attempt lt db df table_name cols schema block_size) = Raise e ->
     let attempt := upload_dds_attempt lt db df table_name cols schema block_size in
     let load := upload_dds_table lt db df table_name cols schema block_size in
     Forall (fun r => fst r = DEBUG) (log_records (fst attempt))
     /\ if is_UniqueViolation e
        then load = (fst attempt ++ [Log ERROR (duplicate_message e)], Ok tt)
        else load = (fst attempt, Raise e))
    /\ (connect_answer db = None ->
        snd (copy_df lt db df (stg_table_name self) None (Some (stg_schema self))
                     default_block_size) = Raise e ->
        let load := upload_df_to_db lt db self df in
        if is_UniqueViolation e
        then snd load = Ok tt
             /\ log_records (fst load)
                = [ (DEBUG, "Uploading data to db..."); (ERROR, duplicate_message e) ]
        else snd load = Raise e
             /\ log_records (fst load) = [ (DEBUG, "Uploading data to db...") ]).
Proof.
  intros lt db df table_name cols schema block_size self e. split.
  - intros Hraise attempt load. split; [apply log_records_upload_dds_attempt|].
    subst load. unfold upload_dds_table. fold attempt.
    destruct attempt as [t r] eqn:E. cbn [snd] in Hraise.
    assert (Hr : r = Raise e) by (unfold attempt in E; rewrite E in Hraise; exact Hraise).
    subst r. unfold try_except, logger_error, emit.
    destruct (is_UniqueViolation e); reflexivity.
  - intros Hconn Hraise load. subst load.
    unfold upload_df_to_db, with_connection, call, logger_debug, emit. rewrite Hconn.
    pose proof (log_records_copy_block db
                  (copy_statement 12 (table_path (Some (stg_schema self)) (stg_table_name self))
                                  (columns_clause None df))
                  (copy_loop db 0 (seek (write StringIO_new (to_csv lt df)) 0) default_block_size)
                  (proj1 (proj2 (copy_loop_only_writes _ _ _ _)))) as Hlog.
    fold (copy_df lt db df (stg_table_name self) None (Some (stg_schema self))
                  default_block_size) in Hlog.
    destruct (copy_df lt db df (stg_table_name self) None (Some (stg_schema self))
                      default_block_size) as [t r].
    cbn [fst snd] in *. subst r.
    unfold try_except, logger_error, emit, io_bind.
    destruct (is_UniqueViolation e) eqn:Hu; cbn.
    + split; [reflexivity|]. rewrite !log_records_app, Hlog. reflexivity.
    + destruct (is_Exception e); cbn; (split; [reflexivity|]);
        rewrite !log_records_app, Hlog; reflexivity.
Qed.

Lemma duplicate_logged_as_error_others_propagate_witness :
  snd (upload_dds_attempt newline loaded_store sample_users_hub "h_users" None (Some "dds")
                          default_block_size) = Raise duplicate_key
  /\ snd (upload_dds_table newline loaded_store sample_users_hub "h_users" None (Some "dds")
                           default_block_size) = Ok tt
  /\ snd (upload_df_to_db newline loaded_store (mkSTG "url" "raw_test_data" "stg")
                          sample_users_hub) = Ok tt.
Proof.
  destruct (duplicate_logged_as_error_others_propagate
              newline loaded_store sample_users_hub "h_users" None (Some "dds")
              default_block_size (mkSTG "url" "raw_test_data" "stg") duplicate_key)
    as [Hdds Hstg].
  split; [reflexivity|]. split.
  - destruct (Hdds eq_refl) as [_ Hload]. cbn [is_UniqueViolation duplicate_key] in Hload.
    rewrite Hload. reflexivity.
  - apply (Hstg eq_refl eq_refl).
Defined.

(** Against C4 as stated: the table already holds the key of the batch, the
    store answers the end of the copy with a uniqueness violation, the load
    returns normally, and the record it logs has level ERROR; no record of
    level WARNING is logged. *)
Lemma duplicate_load_is_not_logged_as_warning :
  let load := upload_dds_table newline loaded_store sample_users_hub "h_users" None
                               (Some "dds") default_block_size in
  snd (upload_dds_attempt newline loaded_store sample_users_hub "h_users" None (Some "dds")
                          default_block_size) = Raise duplicate_key
  /\ snd load = Ok tt
  /\ log_records (fst load)
     = [ (DEBUG, "Uploading df into table: dds.h_users...");
         (ERROR, "Data you are trying to load is already exists: duplicate key value violates unique constraint") ]
  /\ ~ In WARNING (map fst (log_records (fst load))).
Proof.
  cbv zeta. split; [reflexivity|]. split; [reflexivity|]. split; [vm_compute; reflexivity|].
  vm_compute. intros [H|[H|[]]]; discriminate H.
Qed.

(** Another constraint failure and a lost connection are raised to the caller. *)
Example other_store_errors_are_fatal :
  snd (upload_dds_table newline
         (mkStore None (Ok []) (fun _ => None) (fun _ _ => None)
                  (fun _ => Some (NotNullViolation "null value in column")))
         sample_users_hub "h_users" None (Some "dds") default_block_size)
  = Raise (NotNullViolation "null value in column")
  /\ upload_dds_table newline
       (mkStore (Some (OperationalError "connection refused")) (Ok []) (fun _ => None)
                (fun _ _ => None) (fun _ => None))
       sample_users_hub "h_users" None (Some "dds") default_block_size
     = ([Connect], Raise (OperationalError "connection refused")).
Proof. split; vm_compute; reflexivity. Qed.

(** ** The connection scope *)

(** C6 (as the code has it): when the connection cannot be opened its error
    is raised and nothing else happens.  Otherwise: if the wrapped operation
    returns [rv], the connection is committed, closed, and [rv] is returned;
    if it raises an instance of [Exception], the connection is rolled back,
    closed, and the same exception is raised; if it raises an exception
    outside [Exception] ([KeyboardInterrupt], [SystemExit],
    [CancelledError]), the connection is closed without a rollback call and
    the same exception is raised.  On all three paths the last call on the
    connection is [close]. *)
Theorem with_connection_commit_rollback_close :
  forall (A : Type) (db : store) (f : io A),
    match connect_answer db with
    | Some e => with_connection db f = ([Connect], Raise e)
    | None =>
        match snd f with
        | Ok rv => with_connection db f = (Connect :: fst f ++ [Commit; Close], Ok rv)
        | Raise e =>
            if is_Exception e
            then with_connection db f = (Connect :: fst f ++ [Rollback; Close], Raise e)
            else with_connection db f = (Connect :: fst f ++ [Close], Raise e)
        end
        /\ last (fst (with_connection db f)) Connect = Close
    end.
Proof.
  intros A db f. unfold with_connection, call, io_bind.
  destruct (connect_answer db) as [e|]; [reflexivity|].
  assert (Hlast : forall (t : list event) (before : list event),
             last (Connect :: t ++ before ++ [Close]) Connect = Close).
  { intros t before. rewrite app_assoc, app_comm_cons. apply last_last. }
  destruct f as [t [rv|e]]; cbn [fst snd].
  - split; [reflexivity|]. apply (Hlast t [Commit]).
  - destruct (is_Exception e); cbn [fst snd app]; (split; [reflexivity|]).
    + apply (Hlast t [Rollback]).
    + apply (Hlast t []).
Qed.

(** Against C6 as stated: a [KeyboardInterrupt] raised inside the wrapped
    operation leaves through [finally] only: the connection is closed, never
    rolled back. *)
Lemma keyboard_interrupt_skips_rollback :
  let run := with_connection accepting_store
               (logger_debug "Uploading data to db..." ;; io_raise KeyboardInterrupt)%io in
  snd (run : io unit) = Raise KeyboardInterrupt
  /\ fst run = [Connect; Log DEBUG "Uploading data to db..."; Close]
  /\ ~ In Rollback (fst run).
Proof.
  cbv zeta. split; [reflexivity|]. split; [reflexivity|].
  vm_compute. intros [H|[H|[H|[]]]]; discriminate H.
Qed.

(** The two wrapped operations of the program. *)
Example download_commits_and_closes :
  download_stg_data (mkStore None (Ok [mkRaw 1 10 (Some "A") (Some "x")]) (fun _ => None)
                             (fun _ _ => None) (fun _ => None))
  = ([ Connect; Log DEBUG "Downloading data from raw_test_data table...";
       Execute select_raw; Commit; Close ],
     Ok [[("user_id", VInt 1); ("id", VInt 10); ("title", VStr "A"); ("body", VStr "x")]]).
Proof. reflexivity. Qed.

Example failed_download_rolls_back_and_closes :
  download_stg_data (mkStore None (Raise (UndefinedTable "relation does not exist"))
                             (fun _ => None) (fun _ _ => None) (fun _ => None))
  = ([ Connect; Log DEBUG "Downloading data from raw_test_data table...";
       Execute select_raw; Rollback; Close ],
     Raise (UndefinedTable "relation does not exist")).
Proof. reflexivity. Qed.

(** ** The event loop and the orchestrator *)

Section EventLoop.

Lemma length_resume_nth (i : nat) (ts : list task) :
  List.length (resume_nth i ts) = List.length ts.
Proof.
  revert i. induction ts as [|t ts IH]; intros [|i]; simpl; try reflexivity.
  now rewrite IH.
Qed.

Lemma resume_not_cancelled (t : task) : t <> Cancelled -> resume t <> Cancelled.
Proof. destruct t as [[|n] r|r|]; simpl; congruence. Qed.

Lemma resume_nth_not_cancelled (i : nat) (ts : list task) :
  Forall (fun t => t <> Cancelled) ts ->
  Forall (fun t => t <> Cancelled) (resume_nth i ts).
Proof.
  intros H. revert i. induction H as [|t ts Ht Hts IH]; intros [|i]; simpl;
    constructor; auto using resume_not_cancelled.
Qed.

(** The state reported by the loop is the state of the awaits on the tasks
    it reports; the loop neither adds, drops nor cancels a task. *)
Lemma run_until_complete_state (schedule : list nat) :
  forall (ts ts' : list task) (m : main_state),
    run_until_complete ts schedule = (ts', m) ->
    m = await_all 0 ts'
    /\ List.length ts' = List.length ts
    /\ (Forall (fun t => t <> Cancelled) ts -> Forall (fun t => t <> Cancelled) ts').
Proof.
  induction schedule as [|i schedule IH]; intros ts ts' m; simpl;
    destruct (await_all 0 ts) eqn:E; intros Hrun;
    try (injection Hrun as <- <-; now rewrite E).
  apply IH in Hrun as (Hm & Hlen & Hlive).
  rewrite length_resume_nth in Hlen.
  repeat split; auto using resume_nth_not_cancelled.
Qed.

Lemma await_all_returned (ts : list task) :
  forall k, await_all k ts = Returned -> Forall (fun t => t = Finished (Ok tt)) ts.
Proof.
  induction ts as [|t ts IH]; intros k H; [constructor|].
  destruct t as [n r|[[]|e]|]; simpl in H; try discriminate.
  constructor; [reflexivity | eauto].
Qed.

Lemma await_all_raised (ts : list task) :
  forall k e,
    Forall (fun t => t <> Cancelled) ts ->
    await_all k ts = Raised e ->
    exists j, nth_error ts j = Some (Finished (Raise e))
              /\ forall i, (i < j)%nat -> nth_error ts i = Some (Finished (Ok tt)).
Proof.
  induction ts as [|t ts IH]; intros k e Hlive H; [discriminate|].
  inversion Hlive as [|? ? Ht Hts]; subst.
  destruct t as [n r|[[]|e']|]; simpl in H; try discriminate; try congruence.
  - destruct (IH _ _ Hts H) as (j & Hj & Hbefore).
    exists (Datatypes.S j). split; [exact Hj|].
    intros [|i] Hi; [reflexivity|]. apply Hbefore. lia.
  - injection H as ->. exists O. split; [reflexivity|]. intros i Hi. lia.
Qed.

Lemma create_task_not_cancelled (coros : list (io unit)) :
  Forall (fun t => t <> Cancelled) (map create_task coros).
Proof. apply Forall_forall. intros t Ht. apply in_map_iff in Ht as (c & <- & _). discriminate. Qed.

End EventLoop.

Arguments asyncio_run : simpl never.
Arguments upload_dds_data : simpl never.
Arguments transform_data_to_df : simpl never.

(** C9 (as the code has it): the four tasks exist only once enrichment and
    projection have returned the four frames.  While the loop runs no task is
    cancelled.  The orchestrator returns only when the four tasks have all
    finished without error; it raises [e] only when some task has finished
    with [e] and every task awaited before it has finished without error,
    whatever the state of the tasks awaited after it; and once the
    orchestrator is done, [asyncio.run] cancels the tasks still pending. *)
Theorem orchestrator_awaits_in_creation_order :
  forall (lt : string) (stg : store) (target : string -> store) (schedule : list nat)
         (ts : list task) (m : main_state),
    snd (main_dds lt stg target schedule) = Ok (ts, m) ->
    exists (batch : list RawRecord) (t : tables) (running : list task),
      select_answer stg = Ok batch
      /\ enrich_and_split (transform_data_to_df (map dict_row batch)) = Ok t
      /\ run_until_complete (map create_task (upload_dds_data lt target dss_loader t)) schedule
         = (running, m)
      /\ List.length running = 4%nat
      /\ Forall (fun x => x <> Cancelled) running
      /\ (m = Returned -> Forall (fun x => x = Finished (Ok tt)) running /\ ts = running)
      /\ (forall e, m = Raised e ->
            (exists k, nth_error running k = Some (Finished (Raise e))
                       /\ forall j, (j < k)%nat -> nth_error running j = Some (Finished (Ok tt)))
            /\ ts = map cancel running).
Proof.
  intros lt stg target schedule ts m.
  unfold main_dds, download_stg_data, with_connection, call, logger_debug, emit, lift, io_ret.
  destruct (connect_answer stg) as [e|]; [discriminate|].
  destruct (select_answer stg) as [batch|e] eqn:Hsel; cbn;
    [|destruct (is_Exception e); discriminate].
  unfold enrich_and_split.
  destruct (add_hashes_to_raw_data (transform_data_to_df (map dict_row batch)))
    as [df|e] eqn:Hadd; cbn; [|discriminate].
  destruct (split_df_to_tables df) as [t|e] eqn:Hsplit; cbn; [|discriminate].
  intros Hrun.
  assert (Hrun' : asyncio_run (map create_task (upload_dds_data lt target dss_loader t))
                              schedule = (ts, m)) by congruence.
  clear Hrun. unfold asyncio_run in Hrun'.
  destruct (run_until_complete (map create_task (upload_dds_data lt target dss_loader t))
                               schedule) as [running m'] eqn:Hloop.
  assert (Hm : m' = m) by (destruct m'; congruence). subst m'.
  destruct (run_until_complete_state _ _ _ _ Hloop) as (Hawait & Hlen & Hlive).
  specialize (Hlive (create_task_not_cancelled _)).
  exists batch, t, running.
  split; [reflexivity|].
  split; [rewrite Hadd; exact Hsplit|].
  split; [exact Hloop|].
  split; [exact Hlen|].
  split; [exact Hlive|].
  split.
  - intros ->. symmetry in Hawait. apply await_all_returned in Hawait.
    split; [exact Hawait|].
    assert (Hts : ts = map cancel running) by congruence. rewrite Hts.
    clear -Hawait. induction Hawait as [|x l -> _ IH]; simpl; [reflexivity | now f_equal].
  - intros e ->. split.
    + symmetry in Hawait. now apply await_all_raised in Hawait.
    + congruence.
Qed.

Lemma orchestrator_awaits_in_creation_order_witness :
  exists (batch : list RawRecord) (t : tables) (running : list task),
    select_answer (staging_of sample_batch) = Ok batch
    /\ enrich_and_split (transform_data_to_df (map dict_row batch)) = Ok t
    /\ run_until_complete (map create_task (upload_dds_data newline users_hub_missing dss_loader t))
                          [0; 1; 2; 3; 0; 0; 0; 0]%nat
       = (running, Raised missing_table)
    /\ List.length running = 4%nat
    /\ Forall (fun x => x <> Cancelled) running
    /\ (Raised missing_table = Returned ->
        Forall (fun x => x = Finished (Ok tt)) running
        /\ [Finished (Raise missing_table); Cancelled; Cancelled; Cancelled] = running)
    /\ (forall e, Raised missing_table = Raised e ->
          (exists k, nth_error running k = Some (Finished (Raise e))
                     /\ forall j, (j < k)%nat -> nth_error running j = Some (Finished (Ok tt)))
          /\ [Finished (Raise missing_table); Cancelled; Cancelled; Cancelled]
             = map cancel running).
Proof.
  apply (orchestrator_awaits_in_creation_order
           newline (staging_of sample_batch) users_hub_missing [0; 1; 2; 3; 0; 0; 0; 0]%nat
           [Finished (Raise missing_table); Cancelled; Cancelled; Cancelled]
           (Raised missing_table)).
  vm_compute. reflexivity.
Defined.

(** Against C9 as stated: the users hub table is missing, the other three
    loads are accepted.  Each task is started, then the store answers the
    four awaited calls of the users hub load.  The orchestrator raises at
    its first [await] while the three other loads are still pending, each
    with five suspension points ahead of it, and [asyncio.run] then cancels
    the three of them. *)
Lemma failed_first_load_ends_run_and_cancels_the_rest :
  match enrich_and_split (staged_frame sample_batch) with
  | Ok t =>
      let tasks := map create_task (upload_dds_data newline users_hub_missing dss_loader t) in
      run_until_complete tasks [0; 1; 2; 3; 0; 0; 0; 0]%nat
      = ([ Finished (Raise missing_table); Pending 5 (Ok tt); Pending 5 (Ok tt);
           Pending 5 (Ok tt) ],
         Raised missing_table)
      /\ asyncio_run tasks [0; 1; 2; 3; 0; 0; 0; 0]%nat
         = ([ Finished (Raise missing_table); Cancelled; Cancelled; Cancelled ],
            Raised missing_table)
  | Raise _ => False
  end
  /\ snd (main_dds newline (staging_of sample_batch) users_hub_missing
                   [0; 1; 2; 3; 0; 0; 0; 0]%nat)
     = Ok ([ Finished (Raise missing_table); Cancelled; Cancelled; Cancelled ],
           Raised missing_table).
Proof. vm_compute. repeat split. Qed.

(** When the four loads are accepted and the loop serves them in turn, the
    orchestrator returns after the four of them. *)
Example four_accepted_loads_all_finish :
  snd (main_dds newline (staging_of sample_batch) (fun _ => accepting_store)
                (List.concat (repeat [0; 1; 2; 3]%nat 7)))
  = Ok ([ Finished (Ok tt); Finished (Ok tt); Finished (Ok tt); Finished (Ok tt) ], Returned).
Proof. vm_compute. reflexivity. Qed.

(** A load that meets keys already present does not stop the others. *)
Example duplicate_in_one_table_is_not_an_error_of_the_run :
  snd (main_dds newline (staging_of sample_batch)
                (fun table_name => if String.eqb table_name TARGET_DDS_TABLE_HUB_USERS
                                   then loaded_store else accepting_store)
                (List.concat (repeat [0; 1; 2; 3]%nat 7)))
  = Ok ([ Finished (Ok tt); Finished (Ok tt); Finished (Ok tt); Finished (Ok tt) ], Returned).
Proof. vm_compute. reflexivity. Qed.

(** ** Loads of frames without rows *)

Lemma copy_loop_empty_buffer (db : store) (k : nat) (block_size : Z) :
  copy_loop db k (seek (write StringIO_new EmptyString) 0) block_size = io_ret tt.
Proof.
  funelim (copy_loop db k (seek (write StringIO_new EmptyString) 0) block_size);
    [reflexivity|].
  exfalso. apply n. unfold read. cbn.
  destruct (block_size <? 0); [reflexivity|]. now destruct (Z.to_nat block_size).
Qed.

(** A frame that has columns and no row is loaded by a COPY that carries no
    data: no chunk is written and the load returns normally. *)
Lemma empty_frame_load_copies_nothing
      (lt : string) (labels : list string) (table_name : string) (block_size : Z) :
  upload_dds_table lt accepting_store (mkDF labels []) table_name None (Some "dds") block_size
  = ([ Connect;
       Log DEBUG ("Uploading df into table: dds." ++ table_name ++ "...");
       CopyStart (copy_statement 24 ("dds." ++ table_name)
                                 (columns_clause None (mkDF labels [])));
       CopyFinish; Commit; Close ],
     Ok tt).
Proof.
  unfold upload_dds_table, upload_dds_attempt.
  change (to_csv lt (mkDF labels [])) with EmptyString.
  rewrite copy_loop_empty_buffer. reflexivity.
Qed.

(** * Further properties of the code *)

(** ** Column lookup and column assignment *)

Section Columns.


Lemma index_of_None (c : string) (cols : list string) :
  index_of c cols = None <-> ~ In c cols.
Proof.
  induction cols as [|c' cols IH]; simpl; [tauto|].
  destruct (String.eqb_spec c c') as [->|Hne].
  - split; [discriminate | intros H; exfalso; apply H; now left].
  - destruct (index_of c cols) as [j|].
    + split; [discriminate|]. intros H. exfalso. apply H. right.
      destruct IH as [_ IH]. destruct (in_dec string_dec c cols) as [Hin|Hout];
        [exact Hin | now specialize (IH Hout)].
    + split; [|reflexivity]. intros _ [Heq|Hin]; [congruence|].
      now apply (proj1 IH).
Qed.


Lemma index_of_app_other (c c' : string) (cols : list string) :
  c' <> c -> index_of c' (cols ++ [c]) = index_of c' cols.
Proof.
  intros Hne. induction cols as [|x cols IH]; simpl.
  - destruct (String.eqb_spec c' c); [contradiction | reflexivity].
  - destruct (String.eqb c' x); [reflexivity | now rewrite IH].
Qed.


Lemma rectangular_Forall (df : DataFrame) :
  rectangular df = true
  <-> Forall (fun r => List.length r = List.length (columns df)) (rows df).
Proof.
  unfold rectangular. rewrite forallb_forall, Forall_forall.
  split; intros H r Hr; specialize (H r Hr); now apply Nat.eqb_eq.
Qed.











End Columns.

(** ** Key Deriver and Table Projector on any frame *)

Lemma columns_setitem (df : DataFrame) (c : string) (s : Series) :
  columns (setitem df c s)
  = match index_of c (columns df) with
    | Some _ => columns df
    | None => columns df ++ [c]
    end.
Proof. unfold setitem. now destruct (index_of c (columns df)). Qed.

(** X1: [add_hashes_to_raw_data] raises [KeyError] for [user_id] when the
    frame has no such column, whatever else it holds; [KeyError] for [id]
    when it has [user_id] and no [id]; and it returns a frame in every other
    case. *)
Theorem add_hashes_missing_column :
  forall df : DataFrame,
    match index_of "user_id" (columns df), index_of "id" (columns df) with
    | None, _ => add_hashes_to_raw_data df = Raise (KeyError "user_id")
    | Some _, None => add_hashes_to_raw_data df = Raise (KeyError "id")
    | Some _, Some _ => exists df', add_hashes_to_raw_data df = Ok df'
    end.
Proof.
  intros df. unfold add_hashes_to_raw_data, getitem.
  destruct (index_of "user_id" (columns df)) as [i|] eqn:Eu; [|reflexivity].
  cbn [bind]. rewrite columns_setitem.
  assert (Hid : index_of "id" (match index_of "user_id_hash" (columns df) with
                               | Some _ => columns df
                               | None => columns df ++ ["user_id_hash"]
                               end) = index_of "id" (columns df)).
  { destruct (index_of "user_id_hash" (columns df)); [reflexivity|].
    apply index_of_app_other. discriminate. }
  rewrite Hid.
  destruct (index_of "id" (columns df)) as [j|]; cbn [bind]; [eauto | reflexivity].
Qed.



(** X3: [split_df_to_tables] returns the four frames exactly when the frame
    has the six labels [user_id], [user_id_hash], [id], [letter_id_hash],
    [title] and [body]; otherwise it raises [KeyError] for the first of them,
    in this order, that the frame lacks. *)
Theorem split_missing_column :
  forall df : DataFrame,
    match find (fun c => match index_of c (columns df) with Some _ => false | None => true end)
               split_labels with
    | Some c => split_df_to_tables df = Raise (KeyError c)
    | None => exists t, split_df_to_tables df = Ok t
    end.
Proof.
  intros df. unfold split_df_to_tables, getitem_list, split_labels.
  cbn [find indices_of columns].
  destruct (index_of "user_id" (columns df)); cbn [bind]; [|reflexivity].
  destruct (index_of "user_id_hash" (columns df)); cbn [bind]; [|reflexivity].
  destruct (index_of "id" (columns df)); cbn [bind]; [|reflexivity].
  destruct (index_of "letter_id_hash" (columns df)); cbn [bind]; [|reflexivity].
  destruct (index_of "title" (columns df)); cbn [bind]; [|reflexivity].
  destruct (index_of "body" (columns df)); cbn [bind]; [|reflexivity].
  eauto.
Qed.

Lemma row_eqb_eq (a b : row) : row_eqb a b = true <-> a = b.
Proof. unfold row_eqb. destruct (row_eq_dec a b); split; congruence. Qed.

(** X4: whenever [split_df_to_tables] returns, on any frame, the four frames
    carry the labels of the target tables (the key of the letters hub being
    renamed [letter_id]); the letters hub, the letters satellite and the
    posts link have as many rows as the frame, the users hub at most as
    many and no row twice; and every row of the four frames has exactly as
    many cells as its frame has labels. *)
Theorem split_shapes :
  forall (df : DataFrame) (t : tables),
    split_df_to_tables df = Ok t ->
    columns (df_users_hub t) = ["user_id"; "user_id_hash"]
    /\ columns (df_letters_hub t) = ["letter_id"; "letter_id_hash"]
    /\ columns (df_letters_satellite t) = ["letter_id_hash"; "title"; "body"]
    /\ columns (df_posts_link t) = ["user_id_hash"; "letter_id_hash"]
    /\ List.length (rows (df_letters_hub t)) = List.length (rows df)
    /\ List.length (rows (df_letters_satellite t)) = List.length (rows df)
    /\ List.length (rows (df_posts_link t)) = List.length (rows df)
    /\ (List.length (rows (df_users_hub t)) <= List.length (rows df))%nat
    /\ NoDup (rows (df_users_hub t))
    /\ rectangular (df_users_hub t) = true
    /\ rectangular (df_letters_hub t) = true
    /\ rectangular (df_letters_satellite t) = true
    /\ rectangular (df_posts_link t) = true.
Proof.
  intros df t. unfold split_df_to_tables, getitem_list.
  cbn [indices_of columns].
  destruct (index_of "user_id" (columns df)) as [iu|]; cbn [bind]; [|discriminate].
  destruct (index_of "user_id_hash" (columns df)) as [iuh|]; cbn [bind]; [|discriminate].
  destruct (index_of "id" (columns df)) as [ii|]; cbn [bind]; [|discriminate].
  destruct (index_of "letter_id_hash" (columns df)) as [il|]; cbn [bind]; [|discriminate].
  destruct (index_of "title" (columns df)) as [it|]; cbn [bind]; [|discriminate].
  destruct (index_of "body" (columns df)) as [ib|]; cbn [bind]; [|discriminate].
  intros [= <-]. cbn [df_users_hub df_letters_hub df_letters_satellite df_posts_link
                      drop_duplicates rename columns rows].
  set (projection := map (fun r : row => map (fun i => nth i r VNone) [iu; iuh]) (rows df)).
  assert (Hnodup : NoDup (dedup_on row_eqb (fun r : row => r) projection)).
  { pose proof (dedup_on_keys_NoDup row_eqb row_eqb_eq (fun r : row => r) projection) as H.
    now rewrite map_id in H. }
  split; [reflexivity|]. split; [reflexivity|]. split; [reflexivity|]. split; [reflexivity|].
  rewrite !length_map.
  split; [reflexivity|]. split; [reflexivity|]. split; [reflexivity|].
  split.
  { rewrite <- (length_map (fun r : row => map (fun i => nth i r VNone) [iu; iuh]) (rows df)).
    apply NoDup_incl_length; [exact Hnodup | apply dedup_on_incl]. }
  split; [exact Hnodup|].
  split.
  { apply rectangular_Forall, Forall_forall. cbn [rows columns]. intros r Hr.
    apply dedup_on_incl in Hr. apply in_map_iff in Hr as (r0 & <- & _). reflexivity. }
  repeat split; apply rectangular_Forall, Forall_forall; cbn [rows columns];
    intros r Hr; apply in_map_iff in Hr as (r0 & <- & _); reflexivity.
Qed.

Lemma split_shapes_witness :
  exists t : tables,
    split_df_to_tables
      (mkDF ["user_id"; "id"; "title"; "body"; "user_id_hash"; "letter_id_hash"]
            [[VInt 1; VInt 10; VStr "A"; VNone; VStr "h1"; VStr "h10"];
             [VInt 1; VInt 10; VStr "A"; VNone; VStr "h1"; VStr "h10"]]) = Ok t
    /\ List.length (rows (df_letters_hub t)) = 2%nat
    /\ (List.length (rows (df_users_hub t)) <= 2)%nat
    /\ NoDup (rows (df_users_hub t)).
Proof.
  set (df := mkDF _ _).
  assert (E : exists t, split_df_to_tables df = Ok t) by (eexists; vm_compute; reflexivity).
  destruct E as [t E]. exists t. split; [exact E|].
  destruct (split_shapes df t E) as (_ & _ & _ & _ & Hlh & _ & _ & Hle & Hnd & _).
  split; [exact Hlh|]. split; [exact Hle | exact Hnd].
Defined.

(** ** What the projections share *)

(** X5: on every staged frame, each row of the posts link refers to rows
    that exist: its user hash is the hash of some row of the users hub, and
    its letter hash is the hash of a row of the letters hub and the key of a
    row of the letters satellite built from the same record. *)
Theorem link_rows_refer_to_hub_rows :
  forall batch : list RawRecord,
  exists t : tables,
    enrich_and_split (staged_frame batch) = Ok t
    /\ forall link : row,
         In link (rows (df_posts_link t)) ->
         exists r : RawRecord,
           In r batch
           /\ link = [VStr (key_hash (raw_user_id r)); VStr (key_hash (raw_id r))]
           /\ In [VInt (raw_user_id r); nth 0 link VNone] (rows (df_users_hub t))
           /\ In [VInt (raw_id r); nth 1 link VNone] (rows (df_letters_hub t))
           /\ In [nth 1 link VNone; text_value (raw_title r); text_value (raw_body r)]
                 (rows (df_letters_satellite t)).
Proof.
  intros batch. eexists. split; [apply enrich_and_split_staged|].
  cbn [df_posts_link df_users_hub df_letters_hub df_letters_satellite rows].
  intros link Hlink. apply in_map_iff in Hlink as (r & <- & Hr).
  exists r. split; [exact Hr|]. split; [reflexivity|].
  cbn [posts_link_row nth]. split; [|split].
  - change [VInt (raw_user_id r); VStr (key_hash (raw_user_id r))]
      with (users_hub_row (raw_user_id r)).
    apply in_map.
    pose proof (dedup_on_keys_in Z.eqb Z.eqb_eq (fun u : Z => u) (map raw_user_id batch)
                                 (raw_user_id r) (in_map raw_user_id batch r Hr)) as H.
    now rewrite map_id in H.
  - apply in_map_iff. exists r. split; [reflexivity | exact Hr].
  - apply in_map_iff. exists r. split; [reflexivity | exact Hr].
Qed.

Lemma link_rows_refer_to_hub_rows_witness :
  exists t : tables,
    enrich_and_split (staged_frame sample_batch) = Ok t
    /\ exists r : RawRecord,
         In r sample_batch
         /\ In [VInt (raw_user_id r); VStr "c4ca4238a0b923820dcc509a6f75849b"]
               (rows (df_users_hub t))
         /\ In [VInt (raw_id r); VStr "6512bd43d9caa6e02c990b0a82652dca"]
               (rows (df_letters_hub t)).
Proof.
  destruct (link_rows_refer_to_hub_rows sample_batch) as (t & Hrun & Hrefs).
  exists t. split; [exact Hrun|].
  destruct (Hrefs [VStr "c4ca4238a0b923820dcc509a6f75849b";
                   VStr "6512bd43d9caa6e02c990b0a82652dca"])
    as (r & Hr & _ & Hu & Hl & _).
  - assert (Ht : Ok t = enrich_and_split (staged_frame sample_batch)) by (symmetry; exact Hrun).
    vm_compute in Ht. injection Ht as ->. right. left. reflexivity.
  - exists r. split; [exact Hr|]. split; [exact Hu | exact Hl].
Defined.

(** ** Deduplication of the users hub *)

Lemma filter_all {A : Type} (p : A -> bool) (l : list A) :
  (forall x, In x l -> p x = true) -> filter p l = l.
Proof.
  induction l as [|a l IH]; simpl; intros H; [reflexivity|].
  rewrite (H a (or_introl eq_refl)). f_equal. apply IH. auto.
Qed.

Lemma dedup_on_NoDup_id (l : list row) :
  NoDup l -> dedup_on row_eqb (fun r => r) l = l.
Proof.
  induction 1 as [|a l Ha Hl IH]; simpl; [reflexivity|].
  rewrite IH. f_equal. apply filter_all. intros x Hx.
  destruct (row_eqb a x) eqn:E; [|reflexivity].
  apply row_eqb_eq in E. subst. contradiction.
Qed.

(** X6: [drop_duplicates] keeps exactly the rows of the frame, each once; a
    frame without repeated rows is left as it is, so deduplicating twice is
    deduplicating once; and the first of the kept rows is the first row of
    the frame. *)
Theorem drop_duplicates_keeps_each_row_once :
  forall df : DataFrame,
    NoDup (rows (drop_duplicates df))
    /\ (forall r, In r (rows (drop_duplicates df)) <-> In r (rows df))
    /\ (NoDup (rows df) -> drop_duplicates df = df)
    /\ drop_duplicates (drop_duplicates df) = drop_duplicates df
    /\ hd_error (rows (drop_duplicates df)) = hd_error (rows df).
Proof.
  intros df.
  assert (Hnd : NoDup (rows (drop_duplicates df))).
  { pose proof (dedup_on_keys_NoDup row_eqb row_eqb_eq (fun r : row => r) (rows df)) as H.
    now rewrite map_id in H. }
  split; [exact Hnd|]. split.
  { intros r. split; [apply dedup_on_incl|]. intros Hr.
    pose proof (dedup_on_keys_in row_eqb row_eqb_eq (fun r : row => r) (rows df) r Hr) as H.
    now rewrite map_id in H. }
  split.
  { intros H. destruct df as [cols rs]. unfold drop_duplicates. cbn in *.
    now rewrite dedup_on_NoDup_id. }
  split.
  { unfold drop_duplicates in *. cbn [rows columns] in *. f_equal.
    apply dedup_on_NoDup_id. exact Hnd. }
  unfold drop_duplicates. cbn [rows]. now destruct (rows df).
Qed.

Lemma drop_duplicates_keeps_each_row_once_witness :
  let df := mkDF ["user_id"; "user_id_hash"]
                 [[VInt 2; VStr "b"]; [VInt 1; VStr "a"]; [VInt 2; VStr "b"]] in
  (In [VInt 1; VStr "a"] (rows (drop_duplicates df)) <-> In [VInt 1; VStr "a"] (rows df))
  /\ drop_duplicates (drop_duplicates df) = drop_duplicates df
  /\ (NoDup (rows (drop_duplicates df)) ->
      drop_duplicates (drop_duplicates df) = drop_duplicates df).
Proof.
  intros df.
  destruct (drop_duplicates_keeps_each_row_once df) as (_ & Hin & _ & Hidem & _).
  destruct (drop_duplicates_keeps_each_row_once (drop_duplicates df)) as (_ & _ & Hid & _).
  split; [apply Hin|]. split; [exact Hidem | exact Hid].
Defined.

(** ** The text of an integer key *)

(** X7: [str] tells integers apart: two integer keys have the same text, and
    so the same input to MD5, only if they are the same integer.  A hash
    shared by two different integer keys can therefore only come from MD5;
    an integer and a text spelling it do share their hash. *)
Theorem integer_keys_have_distinct_texts :
  forall a b : Z,
    (py_str a = py_str b <-> a = b)
    /\ (py_str (VInt a) = py_str (VInt b) <-> a = b)
    /\ hash_cell (VInt a) = hash_cell (VStr (py_str a)).
Proof.
  assert (Hparse : forall z : Z,
             option_map Z.of_int (NilZero.int_of_string (py_str z)) = Some z).
  { intros z. unfold py_str, PyStr_int.
    destruct (Z.to_int z) as [[| | | | | | | | | |]|[| | | | | | | | | |]] eqn:E;
      try (rewrite NilZero.isi by discriminate; cbn [option_map];
           rewrite <- E, DecimalZ.of_to; reflexivity).
    - cbn. rewrite <- (DecimalZ.of_to z), E. reflexivity.
    - cbn. rewrite <- (DecimalZ.of_to z), E. reflexivity. }
  assert (Hinj : forall a b : Z, py_str a = py_str b -> a = b).
  { intros a b H. pose proof (Hparse a) as Ha. rewrite H, Hparse in Ha. congruence. }
  intros a b. split; [|split].
  - split; [apply Hinj | now intros ->].
  - split; [apply Hinj | now intros ->].
  - reflexivity.
Qed.

Lemma integer_keys_have_distinct_texts_witness :
  (py_str 10 = py_str 10 <-> 10 = 10)
  /\ (py_str (-10) = py_str 10 -> -10 = 10)
  /\ hash_cell (VInt 10) = hash_cell (VStr "10").
Proof.
  destruct (integer_keys_have_distinct_texts 10 10) as (H1 & _ & H3).
  destruct (integer_keys_have_distinct_texts (-10) 10) as (H2 & _ & _).
  split; [exact H1|]. split; [apply H2 | exact H3].
Defined.

(** ** The chunks of a copy *)

Section Chunks.

Lemma chunks_app (t t' : list event) : chunks (t ++ t') = chunks t ++ chunks t'.
Proof.
  induction t as [|ev t IH]; simpl; [reflexivity|].
  destruct ev; try exact IH. simpl. now rewrite IH.
Qed.

Lemma transaction_calls_app (t t' : list event) :
  transaction_calls (t ++ t') = transaction_calls t ++ transaction_calls t'.
Proof.
  induction t as [|ev t IH]; simpl; [reflexivity|].
  destruct ev; try exact IH; simpl; now rewrite IH.
Qed.

Lemma only_writes_no_transaction_call (t : list event) :
  Forall (fun ev => exists data, ev = CopyWrite data) t -> transaction_calls t = [].
Proof. induction 1 as [|ev t [data ->] _ IH]; simpl; auto. Qed.

Lemma length_substring_le (s : string) :
  forall n m, (String.length (substring n m s) <= m)%nat.
Proof.
  induction s as [|c s IH]; intros [|n] [|m]; simpl; try lia.
  - specialize (IH 0%nat m). lia.
  - apply IH.
  - specialize (IH n (Datatypes.S m)). lia.
Qed.

Lemma drop_all (s : string) : drop (String.length s) s = EmptyString.
Proof. induction s as [|c s IH]; simpl; auto. Qed.

Lemma read_negative (buf : StringIO) (size : Z) :
  size < 0 ->
  fst (read buf size) = remaining buf
  /\ remaining (snd (read buf size)) = EmptyString.
Proof.
  intros Hneg. unfold read. destruct (Z.ltb_spec size 0) as [_|H]; [|lia].
  cbn [fst snd]. split; [reflexivity|].
  rewrite (remaining_drop (mkIO _ _)). cbn [getvalue tell].
  rewrite drop_add, <- remaining_drop. apply drop_all.
Qed.

(** At the end of the buffer the loop writes nothing. *)
Lemma copy_loop_at_end (db : store) (k : nat) (buf : StringIO) (block_size : Z) :
  remaining buf = EmptyString -> copy_loop db k buf block_size = io_ret tt.
Proof.
  intros Hend. funelim (copy_loop db k buf block_size); [reflexivity|].
  exfalso. apply n. unfold read. cbn [fst]. rewrite Hend.
  destruct (block_size <? 0); [reflexivity|]. now destruct (Z.to_nat block_size).
Qed.

(** Whatever the store answers, a positive block size bounds every chunk and
    what is written is a prefix of what the buffer held. *)
Lemma copy_loop_chunks (db : store) (k : nat) (buf : StringIO) (block_size : Z) :
  0 < block_size ->
  Forall (fun data => data <> EmptyString
                      /\ (String.length data <= Z.to_nat block_size)%nat)
         (chunks (fst (copy_loop db k buf block_size)))
  /\ exists rest, remaining buf = (written (fst (copy_loop db k buf block_size)) ++ rest)%string.
Proof.
  intros Hpos. funelim (copy_loop db k buf block_size).
  - split; [constructor|]. exists (remaining buf). reflexivity.
  - assert (Hbound : (String.length (fst (read buf block_size)) <= Z.to_nat block_size)%nat).
    { unfold read. destruct (Z.ltb_spec block_size 0); [lia|]. cbn [fst].
      apply length_substring_le. }
    destruct (read_positive buf block_size Hpos) as [Hsplit _].
    unfold io_bind, call.
    destruct (copy_write_answer db k (fst (read buf block_size))) as [e|].
    + cbn. split; [repeat constructor; assumption|].
      exists (remaining (snd (read buf block_size))).
      now rewrite string_app_empty_r.
    + specialize (H tt Hpos).
      destruct (copy_loop db (Datatypes.S k) (snd (read buf block_size)) block_size) as [t r].
      cbn [fst snd] in *. destruct H as [Hall [rest Hrest]]. cbn.
      split; [constructor; [split; assumption | exact Hall]|].
      exists rest. rewrite string_app_assoc, <- Hrest. now symmetry.
Qed.

(** The trace of the DDS attempt, case by case. *)
Lemma upload_dds_attempt_trace
      (lt : string) (db : store) (df : DataFrame) (table_name : string)
      (cols : option (list string)) (schema : option string) (block_size : Z) :
  let statement := copy_statement 24 (table_path schema table_name) (columns_clause cols df) in
  let started := Log DEBUG ("Uploading df into table: " ++ format_optional schema ++ "."
                            ++ table_name ++ "...") in
  let loop := copy_loop db 0 (seek (write StringIO_new (to_csv lt df)) 0) block_size in
  upload_dds_attempt lt db df table_name cols schema block_size
  = match connect_answer db with
    | Some e => ([Connect], Raise e)
    | None =>
        match copy_start_answer db statement with
        | Some e => ([Connect; started; CopyStart statement; Rollback; Close], Raise e)
        | None =>
            match snd loop with
            | Raise e =>
                (Connect :: started :: CopyStart statement :: fst loop
                   ++ [CopyAbort; Rollback; Close], Raise e)
            | Ok _ =>
                match copy_finish_answer db statement with
                | Some e =>
                    (Connect :: started :: CopyStart statement :: fst loop
                       ++ [CopyFinish; Rollback; Close], Raise e)
                | None =>
                    (Connect :: started :: CopyStart statement :: fst loop
                       ++ [CopyFinish; Commit; Close], Ok tt)
                end
            end
        end
    end.
Proof.
  intros statement started loop.
  unfold upload_dds_attempt, connection_block, copy_block, call, logger_debug, emit, io_bind.
  fold statement. fold started. fold loop.
  destruct (connect_answer db); [reflexivity|].
  destruct (copy_start_answer db statement); [reflexivity|].
  destruct loop as [t [[]|e]]; cbn [fst snd].
  - destruct (copy_finish_answer db statement); cbn; now rewrite <- !app_assoc.
  - cbn. now rewrite <- !app_assoc.
Qed.

Lemma copy_df_trace
      (lt : string) (db : store) (df : DataFrame) (table_name : string)
      (cols : option (list string)) (schema : option string) (block_size : Z) :
  let statement := copy_statement 12 (table_path schema table_name) (columns_clause cols df) in
  let loop := copy_loop db 0 (seek (write StringIO_new (to_csv lt df)) 0) block_size in
  copy_df lt db df table_name cols schema block_size
  = match copy_start_answer db statement with
    | Some e => ([CopyStart statement], Raise e)
    | None =>
        match snd loop with
        | Raise e => (CopyStart statement :: fst loop ++ [CopyAbort], Raise e)
        | Ok _ =>
            match copy_finish_answer db statement with
            | Some e => (CopyStart statement :: fst loop ++ [CopyFinish], Raise e)
            | None => (CopyStart statement :: fst loop ++ [CopyFinish], Ok tt)
            end
        end
    end.
Proof.
  intros statement loop.
  unfold copy_df, copy_block, call, io_bind. fold statement. fold loop.
  destruct (copy_start_answer db statement); [reflexivity|].
  destruct loop as [t [[]|e]]; cbn [fst snd]; [|reflexivity].
  destruct (copy_finish_answer db statement); reflexivity.
Qed.

End Chunks.

Lemma copy_loop_zero (db : store) (k : nat) (buf : StringIO) (block_size : Z) :
  block_size = 0 -> copy_loop db k buf block_size = io_ret tt.
Proof.
  intros Hzero. funelim (copy_loop db k buf block_size); [reflexivity|].
  exfalso. apply n. try subst. unfold read. cbn. now destruct (remaining buf).
Qed.

Lemma copy_loop_negative (db : store) (k : nat) (buf : StringIO) (block_size : Z) :
  block_size < 0 ->
  chunks (fst (copy_loop db k buf block_size))
  = match remaining buf with
    | EmptyString => []
    | text => [text]
    end.
Proof.
  intros Hneg. destruct (read_negative buf block_size Hneg) as [Hread Hend].
  funelim (copy_loop db k buf block_size).
  - cbn. now rewrite <- Hread, e.
  - assert (Hne : remaining buf <> EmptyString) by (rewrite <- Hread; exact n).
    unfold io_bind, call.
    rewrite (copy_loop_at_end db (Datatypes.S k) _ block_size Hend).
    rewrite Hread.
    destruct (copy_write_answer db k (remaining buf)); cbn;
      destruct (remaining buf); congruence.
Qed.

(** X8: whatever the store answers and for every positive block size, each
    chunk handed to [copy.write] by either loader is non-empty and has at
    most [block_size] characters, and the chunks written so far, put end to
    end, are a prefix of the text of the frame: a load never sends a
    character that is not in the serialisation, nor out of order, even when
    it is cut short by an error. *)
Theorem chunks_are_bounded_and_form_a_prefix :
  forall (lt : string) (db : store) (df : DataFrame) (table_name : string)
         (cols : option (list string)) (schema : option string) (block_size : Z),
    0 < block_size ->
    let bounded := fun data => data <> EmptyString
                               /\ (String.length data <= Z.to_nat block_size)%nat in
    let dds := fst (upload_dds_table lt db df table_name cols schema block_size) in
    let stg := fst (copy_df lt db df table_name cols schema block_size) in
    Forall bounded (chunks dds)
    /\ (exists rest, to_csv lt df = (written dds ++ rest)%string)
    /\ Forall bounded (chunks stg)
    /\ (exists rest, to_csv lt df = (written stg ++ rest)%string).
Proof.
  intros lt db df table_name cols schema block_size Hpos bounded dds stg.
  destruct (copy_loop_chunks db 0 (seek (write StringIO_new (to_csv lt df)) 0) block_size Hpos)
    as [Hall [rest Hrest]].
  rewrite fresh_buffer in Hrest.
  assert (Hdds : (chunks dds = [] /\ written dds = EmptyString)
                 \/ (chunks dds = chunks (fst (copy_loop db 0
                                    (seek (write StringIO_new (to_csv lt df)) 0) block_size))
                     /\ written dds = written (fst (copy_loop db 0
                                    (seek (write StringIO_new (to_csv lt df)) 0) block_size)))).
  { subst dds. unfold upload_dds_table. rewrite written_try_except.
    assert (Hc : forall body : io unit,
               chunks (fst (try_except body is_UniqueViolation
                                       (fun e => logger_error (duplicate_message e))))
               = chunks (fst body)).
    { intros [t [[]|e]]; cbn; [reflexivity|].
      destruct (is_UniqueViolation e); cbn; [|reflexivity].
      rewrite chunks_app. cbn. now rewrite app_nil_r. }
    rewrite Hc. clear Hc.
    pose proof (upload_dds_attempt_trace lt db df table_name cols schema block_size) as Ht.
    cbv zeta in Ht. rewrite Ht. clear Ht.
    destruct (connect_answer db); [left; split; reflexivity|].
    destruct (copy_start_answer db _); [left; split; reflexivity|].
    right.
    destruct (snd (copy_loop db 0 (seek (write StringIO_new (to_csv lt df)) 0) block_size))
      as [[]|e]; [destruct (copy_finish_answer db _)|];
      cbn [fst chunks written]; rewrite chunks_app, written_app; cbn;
        now rewrite app_nil_r, string_app_empty_r. }
  assert (Hstg : (chunks stg = [] /\ written stg = EmptyString)
                 \/ (chunks stg = chunks (fst (copy_loop db 0
                                    (seek (write StringIO_new (to_csv lt df)) 0) block_size))
                     /\ written stg = written (fst (copy_loop db 0
                                    (seek (write StringIO_new (to_csv lt df)) 0) block_size)))).
  { subst stg.
    pose proof (copy_df_trace lt db df table_name cols schema block_size) as Ht.
    cbv zeta in Ht. rewrite Ht. clear Ht.
    destruct (copy_start_answer db _); [left; split; reflexivity|].
    right.
    destruct (snd (copy_loop db 0 (seek (write StringIO_new (to_csv lt df)) 0) block_size))
      as [[]|e]; [destruct (copy_finish_answer db _)|];
      cbn [fst chunks written]; rewrite chunks_app, written_app; cbn;
        now rewrite app_nil_r, string_app_empty_r. }
  destruct Hdds as [[-> ->]|[-> ->]]; destruct Hstg as [[-> ->]|[-> ->]];
    repeat split; try constructor; try exact Hall;
      try (exists (to_csv lt df); reflexivity); try (exists rest; exact Hrest).
Qed.

Lemma chunks_are_bounded_and_form_a_prefix_witness :
  let df := sample_users_hub in
  let dds := fst (upload_dds_table newline failing_second_write df "h_users" None
                                   (Some "dds") 7) in
  0 < 7
  /\ chunks dds = ["1,c4ca4"; "238a0b9"]
  /\ Forall (fun data => data <> EmptyString /\ (String.length data <= 7)%nat) (chunks dds)
  /\ exists rest, to_csv newline df = (written dds ++ rest)%string.
Proof.
  intros df dds. split; [lia|]. split; [vm_compute; reflexivity|].
  destruct (chunks_are_bounded_and_form_a_prefix
              newline failing_second_write df "h_users" None (Some "dds") 7 eq_refl)
    as (Hbound & Hprefix & _).
  split; [exact Hbound | exact Hprefix].
Defined.

Lemma chunks_try_except (body : io unit) :
  chunks (fst (try_except body is_UniqueViolation
                          (fun e => logger_error (duplicate_message e))))
  = chunks (fst body).
Proof.
  destruct body as [t [[]|e]]; cbn; [reflexivity|].
  destruct (is_UniqueViolation e); cbn; [|reflexivity].
  rewrite chunks_app. cbn. now rewrite app_nil_r.
Qed.

(** X9: the block sizes that are not positive.  With [block_size = 0] the
    first read is empty and the loop ends at once: no chunk is written
    whatever the frame holds, and when the store accepts the connection and
    the COPY the load still commits and returns normally.  With a negative
    [block_size] a read returns all that is left: when the COPY was started,
    the text of a frame that has rows is handed over as one single chunk. *)
Theorem non_positive_block_sizes :
  forall (lt : string) (db : store) (df : DataFrame) (table_name : string)
         (cols : option (list string)) (schema : option string) (block_size : Z),
    chunks (fst (upload_dds_table lt db df table_name cols schema 0)) = []
    /\ (connect_answer db = None ->
        (forall statement, copy_start_answer db statement = None) ->
        (forall statement, copy_finish_answer db statement = None) ->
        upload_dds_table lt db df table_name cols schema 0
        = ([ Connect;
             Log DEBUG ("Uploading df into table: " ++ format_optional schema ++ "."
                        ++ table_name ++ "...");
             CopyStart (copy_statement 24 (table_path schema table_name)
                                       (columns_clause cols df));
             CopyFinish; Commit; Close ],
           Ok tt))
    /\ (block_size < 0 ->
        connect_answer db = None ->
        (forall statement, copy_start_answer db statement = None) ->
        chunks (fst (upload_dds_table lt db df table_name cols schema block_size))
        = match to_csv lt df with
          | EmptyString => []
          | text => [text]
          end).
Proof.
  intros lt db df table_name cols schema block_size.
  pose proof (copy_loop_zero db 0 (seek (write StringIO_new (to_csv lt df)) 0) 0 eq_refl)
    as Hzero.
  split; [|split].
  - unfold upload_dds_table. rewrite chunks_try_except.
    pose proof (upload_dds_attempt_trace lt db df table_name cols schema 0) as Ht.
    cbv zeta in Ht. rewrite Ht, Hzero. clear Ht.
    destruct (connect_answer db); [reflexivity|].
    destruct (copy_start_answer db _); [reflexivity|].
    cbn. destruct (copy_finish_answer db _); reflexivity.
  - intros Hconn Hstart Hfinish. unfold upload_dds_table.
    pose proof (upload_dds_attempt_trace lt db df table_name cols schema 0) as Ht.
    cbv zeta in Ht. rewrite Ht, Hzero, Hconn, Hstart. cbn. now rewrite Hfinish.
  - intros Hneg Hconn Hstart. unfold upload_dds_table. rewrite chunks_try_except.
    pose proof (upload_dds_attempt_trace lt db df table_name cols schema block_size) as Ht.
    cbv zeta in Ht. rewrite Ht, Hconn, Hstart. clear Ht.
    pose proof (copy_loop_negative db 0 (seek (write StringIO_new (to_csv lt df)) 0)
                                   block_size Hneg) as Hchunks.
    rewrite fresh_buffer in Hchunks.
    destruct (snd (copy_loop db 0 (seek (write StringIO_new (to_csv lt df)) 0) block_size))
      as [[]|e]; [destruct (copy_finish_answer db _)|];
      cbn [fst chunks]; rewrite chunks_app, Hchunks; cbn; now rewrite app_nil_r.
Qed.

Lemma non_positive_block_sizes_witness :
  snd (upload_dds_table newline accepting_store sample_users_hub "h_users" None (Some "dds") 0)
  = Ok tt
  /\ chunks (fst (upload_dds_table newline accepting_store sample_users_hub "h_users" None
                                   (Some "dds") 0)) = []
  /\ chunks (fst (upload_dds_table newline accepting_store sample_users_hub "h_users" None
                                   (Some "dds") (-1)))
     = [("1,c4ca4238a0b923820dcc509a6f75849b" ++ newline)%string].
Proof.
  destruct (non_positive_block_sizes newline accepting_store sample_users_hub "h_users" None
                                     (Some "dds") (-1))
    as (Hnone & Hrun & Hneg).
  split; [now rewrite (Hrun eq_refl (fun _ => eq_refl) (fun _ => eq_refl))|].
  split; [exact Hnone|].
  now rewrite (Hneg eq_refl eq_refl (fun _ => eq_refl)).
Defined.

(** ** Transactions *)

(** X10: the transaction calls of a DDS load.  Nothing is called when the
    connection cannot be opened.  Otherwise the connection is committed and
    closed when the attempt ended normally, and rolled back and closed when
    it raised, for a uniqueness violation as for any other error: a load
    that met existing keys leaves nothing of its batch in the table.  The
    close is the last call, and commit and rollback never both occur. *)
Theorem dds_load_commits_or_rolls_back :
  forall (lt : string) (db : store) (df : DataFrame) (table_name : string)
         (cols : option (list string)) (schema : option string) (block_size : Z),
    transaction_calls (fst (upload_dds_table lt db df table_name cols schema block_size))
    = match connect_answer db with
      | Some _ => []
      | None =>
          match snd (upload_dds_attempt lt db df table_name cols schema block_size) with
          | Ok _ => [Commit; Close]
          | Raise _ => [Rollback; Close]
          end
      end.
Proof.
  intros lt db df table_name cols schema block_size.
  assert (Hloop : transaction_calls
                    (fst (copy_loop db 0 (seek (write StringIO_new (to_csv lt df)) 0)
                                    block_size)) = []).
  { apply only_writes_no_transaction_call, copy_loop_only_writes. }
  unfold upload_dds_table.
  pose proof (upload_dds_attempt_trace lt db df table_name cols schema block_size) as Ht.
  cbv zeta in Ht. rewrite Ht. clear Ht.
  destruct (connect_answer db) as [e|];
    [cbn; destruct (is_UniqueViolation e); reflexivity|].
  destruct (copy_start_answer db _) as [e|];
    [cbn; destruct (is_UniqueViolation e); reflexivity|].
  destruct (snd (copy_loop db 0 (seek (write StringIO_new (to_csv lt df)) 0) block_size))
    as [[]|e]; [destruct (copy_finish_answer db _) as [e|]|];
    cbn; try destruct (is_UniqueViolation e); cbn;
      rewrite ?transaction_calls_app, Hloop; reflexivity.
Qed.

(** X11: the transaction calls of a staging load differ.  The uniqueness
    violation is caught inside the wrapped function, so [with_connection]
    sees a normal return and commits; any other [Exception] is rolled back;
    an exception outside [Exception] only closes the connection.  The load
    returns normally in the first two rows of the table below and raises in
    the others. *)
Theorem staging_load_commits_after_duplicate :
  forall (lt : string) (db : store) (self : STGLoader) (df : DataFrame),
    let copy := copy_df lt db df (stg_table_name self) None (Some (stg_schema self))
                        default_block_size in
    let load := upload_df_to_db lt db self df in
    match connect_answer db with
    | Some e => load = ([Connect], Raise e)
    | None =>
        match snd copy with
        | Ok _ => transaction_calls (fst load) = [Commit; Close] /\ snd load = Ok tt
        | Raise e =>
            if is_UniqueViolation e
            then transaction_calls (fst load) = [Commit; Close] /\ snd load = Ok tt
            else if is_Exception e
                 then transaction_calls (fst load) = [Rollback; Close] /\ snd load = Raise e
                 else transaction_calls (fst load) = [Close] /\ snd load = Raise e
        end
    end.
Proof.
  intros lt db self df copy load. subst load.
  unfold upload_df_to_db, with_connection, call, logger_debug, emit.
  destruct (connect_answer db) as [e|]; [reflexivity|].
  fold copy.
  assert (Hcopy : transaction_calls (fst copy) = []).
  { subst copy.
    pose proof (copy_df_trace lt db df (stg_table_name self) None (Some (stg_schema self))
                              default_block_size) as Ht.
    cbv zeta in Ht. rewrite Ht. clear Ht.
    assert (Hloop : transaction_calls
                      (fst (copy_loop db 0 (seek (write StringIO_new (to_csv lt df)) 0)
                                      default_block_size)) = [])
      by apply only_writes_no_transaction_call, copy_loop_only_writes.
    destruct (copy_start_answer db _); [reflexivity|].
    destruct (snd (copy_loop db 0 (seek (write StringIO_new (to_csv lt df)) 0)
                             default_block_size)) as [[]|e];
      [destruct (copy_finish_answer db _)|];
      cbn; rewrite transaction_calls_app, Hloop; reflexivity. }
  destruct copy as [t [[]|e]]; cbn [fst snd] in *; unfold try_except, logger_error, emit, io_bind.
  - cbn. rewrite transaction_calls_app, Hcopy. split; reflexivity.
  - destruct (is_UniqueViolation e); cbn.
    + rewrite !transaction_calls_app, Hcopy. split; reflexivity.
    + destruct (is_Exception e); cbn; rewrite transaction_calls_app, Hcopy; split; reflexivity.
Qed.

(** ** Progress and result of the orchestrator *)

Section Progress.

Lemma outcome_of_resume (t : task) : outcome_of (resume t) = outcome_of t.
Proof. now destruct t as [[|n] r|r|]. Qed.

Lemma outcomes_resume_nth (i : nat) (ts : list task) :
  map outcome_of (resume_nth i ts) = map outcome_of ts.
Proof.
  revert i. induction ts as [|t ts IH]; intros [|i]; simpl; try reflexivity.
  - now rewrite outcome_of_resume.
  - now rewrite IH.
Qed.

Lemma outcomes_run_until_complete (schedule : list nat) :
  forall (ts ts' : list task) (m : main_state),
    run_until_complete ts schedule = (ts', m) -> map outcome_of ts' = map outcome_of ts.
Proof.
  induction schedule as [|i schedule IH]; intros ts ts' m; simpl;
    destruct (await_all 0 ts); intros Hrun; try (now injection Hrun as <- _).
  apply IH in Hrun. now rewrite Hrun, outcomes_resume_nth.
Qed.

(** What the awaits give is read off the outcomes the tasks carry. *)
Lemma await_all_first_error (ts : list task) :
  forall k,
    match await_all k ts with
    | Returned => first_error (map snd_outcome ts) = None
    | Raised e => first_error (map snd_outcome ts) = Some e \/ In Cancelled ts
    | Awaiting _ => True
    end.
Proof.
  induction ts as [|t ts IH]; intros k; simpl; [reflexivity|].
  destruct t as [n r|[[]|e]|]; simpl; auto.
  specialize (IH (Datatypes.S k)). destruct (await_all (Datatypes.S k) ts); auto.
  destruct IH; auto.
Qed.

Lemma nth_resume_nth (i j : nat) (ts : list task) :
  nth j (resume_nth i ts) Cancelled
  = if Nat.eqb j i then resume (nth j ts Cancelled) else nth j ts Cancelled.
Proof.
  revert i j. induction ts as [|t ts IH]; intros [|i] [|j]; simpl; try reflexivity.
  - now destruct (Nat.eqb j i).
  - apply IH.
Qed.

Lemma resumes_needed_resume (t : task) :
  resumes_needed (resume t) = Nat.pred (resumes_needed t).
Proof. now destruct t as [[|n] r|r|]. Qed.

Lemma awaiting_needs_resume (ts : list task) :
  forall k j, await_all k ts = Awaiting j ->
              exists i, (0 < resumes_needed (nth i ts Cancelled))%nat.
Proof.
  induction ts as [|t ts IH]; intros k j; simpl; [discriminate|].
  destruct t as [n r|[[]|e]|]; try discriminate.
  - intros _. exists O. simpl. lia.
  - intros H. apply IH in H as [i Hi]. now exists (Datatypes.S i).
Qed.

(** A schedule that serves every task to its end lets the awaits complete. *)
Lemma served_schedule_completes (schedule : list nat) :
  forall ts : list task,
    (forall i, (resumes_needed (nth i ts Cancelled) <= count_occ Nat.eq_dec schedule i)%nat) ->
    forall k, snd (run_until_complete ts schedule) <> Awaiting k.
Proof.
  induction schedule as [|i schedule IH]; intros ts Hserved k; simpl.
  - destruct (await_all 0 ts) eqn:E; cbn; try discriminate.
    apply awaiting_needs_resume in E as [j Hj]. specialize (Hserved j). simpl in Hserved. lia.
  - destruct (await_all 0 ts) eqn:E; cbn; try discriminate.
    apply IH. intros j. rewrite nth_resume_nth. specialize (Hserved j).
    destruct (Nat.eqb_spec j i) as [->|Hne].
    + rewrite count_occ_cons_eq in Hserved by reflexivity.
      rewrite resumes_needed_resume. lia.
    + rewrite count_occ_cons_neq in Hserved by congruence. exact Hserved.
Qed.

End Progress.

Lemma awaits_follow_first_error (coros : list (io unit)) (schedule : list nat) :
  let tasks := map create_task coros in
  let m := snd (run_until_complete tasks schedule) in
  match m with
  | Returned => first_error (map snd coros) = None
  | Raised e => first_error (map snd coros) = Some e
  | Awaiting _ => True
  end
  /\ ((forall i, (resumes_needed (nth i tasks Cancelled)
                  <= count_occ Nat.eq_dec schedule i)%nat) ->
      m = match first_error (map snd coros) with
          | None => Returned
          | Some e => Raised e
          end).
Proof.
  intros tasks m.
  destruct (run_until_complete tasks schedule) as [ts' m'] eqn:Hrun.
  assert (Hm : m = m') by (subst m; reflexivity). clearbody m. subst m'.
  destruct (run_until_complete_state _ _ _ _ Hrun) as (Hawait & _ & Hlive).
  specialize (Hlive (create_task_not_cancelled coros)).
  pose proof (outcomes_run_until_complete _ _ _ _ Hrun) as Hout.
  assert (Hres : map snd_outcome ts' = map snd coros).
  { assert (H : map snd_outcome ts'
                = map (fun o => match o with Some r => r | None => Ok tt end)
                      (map outcome_of ts'))
      by (rewrite List.map_map; reflexivity).
    rewrite H, Hout. unfold tasks. rewrite !List.map_map. reflexivity. }
  pose proof (await_all_first_error ts' 0) as Hfirst.
  rewrite <- Hawait, Hres in Hfirst.
  assert (Hfirst' : match m with
                    | Returned => first_error (map snd coros) = None
                    | Raised e => first_error (map snd coros) = Some e
                    | Awaiting _ => True
                    end).
  { destruct m; auto. destruct Hfirst as [H|H]; [exact H|].
    exfalso. rewrite Forall_forall in Hlive. now apply (Hlive Cancelled H). }
  split; [exact Hfirst'|].
  intros Hserved.
  pose proof (served_schedule_completes schedule tasks Hserved) as Hdone.
  rewrite Hrun in Hdone. cbn [snd] in Hdone.
  destruct m as [k| |e]; [now destruct (Hdone k) | now rewrite Hfirst' | now rewrite Hfirst'].
Qed.

(** X12: what the orchestrator ends with does not depend on the order in
    which the loads progress.  When it returns, none of the four loads has
    raised; when it raises, it raises the error of the first load, in the
    order users hub, letters hub, letters satellite, posts link, that fails,
    also when a later load failed earlier in time.  And if the loop resumes
    every task as many times as the task needs, the orchestrator does
    complete, with exactly that result. *)
Theorem orchestrator_result_is_schedule_independent :
  forall (lt : string) (target : string -> store) (self : DDSLoader) (t : tables)
         (schedule : list nat),
    let coros := upload_dds_data lt target self t in
    let tasks := map create_task coros in
    let m := snd (run_until_complete tasks schedule) in
    match m with
    | Returned => first_error (map snd coros) = None
    | Raised e => first_error (map snd coros) = Some e
    | Awaiting _ => True
    end
    /\ ((forall i, (resumes_needed (nth i tasks Cancelled)
                    <= count_occ Nat.eq_dec schedule i)%nat) ->
        m = match first_error (map snd coros) with
            | None => Returned
            | Some e => Raised e
            end).
Proof. intros. apply awaits_follow_first_error. Qed.

(** The letters hub fails first in time, the posts link fails too: the
    orchestrator reports the error of the letters hub, the first of the two
    in creation order, under both schedules. *)
Lemma orchestrator_result_is_schedule_independent_witness :
  match enrich_and_split (staged_frame sample_batch) with
  | Ok t =>
      let target := fun table_name =>
                      if String.eqb table_name TARGET_DDS_TABLE_HUB_LETTERS
                      then missing_table_store
                      else if String.eqb table_name TARGET_DDS_TABLE_LINK_POSTS
                           then loaded_store_with (NotNullViolation "null value in column")
                           else accepting_store in
      let tasks := map create_task (upload_dds_data newline target dss_loader t) in
      snd (run_until_complete tasks (List.concat (repeat [3; 2; 1; 0]%nat 7)))
      = Raised missing_table
      /\ snd (run_until_complete tasks (repeat 1%nat 5 ++ List.concat (repeat [0; 2; 3]%nat 7)))
         = Raised missing_table
  | Raise _ => False
  end.
Proof.
  destruct (enrich_and_split (staged_frame sample_batch)) as [t|e] eqn:E;
    [|vm_compute in E; discriminate E].
  intros target tasks.
  assert (Hfirst : first_error (map snd (upload_dds_data newline target dss_loader t))
                   = Some missing_table).
  { assert (Ht : Ok t = enrich_and_split (staged_frame sample_batch)) by (symmetry; exact E).
    vm_compute in Ht. injection Ht as ->. vm_compute. reflexivity. }
  assert (Hneeds : map resumes_needed tasks = [7; 5; 7; 7]%nat).
  { assert (Ht : Ok t = enrich_and_split (staged_frame sample_batch)) by (symmetry; exact E).
    vm_compute in Ht. injection Ht as ->. vm_compute. reflexivity. }
  assert (Hnth : forall i, resumes_needed (nth i tasks Cancelled)
                           = nth i [7; 5; 7; 7]%nat 0%nat).
  { intros i. rewrite <- Hneeds.
    change 0%nat with (resumes_needed Cancelled). now rewrite map_nth. }
  split.
  - destruct (orchestrator_result_is_schedule_independent
                newline target dss_loader t (List.concat (repeat [3; 2; 1; 0]%nat 7)))
      as [_ Hserved].
    fold tasks in Hserved. rewrite Hserved, Hfirst; [reflexivity|].
    intros i. rewrite Hnth.
    destruct i as [|[|[|[|i]]]]; cbn; try lia; destruct i; lia.
  - destruct (orchestrator_result_is_schedule_independent
                newline target dss_loader t
                (repeat 1%nat 5 ++ List.concat (repeat [0; 2; 3]%nat 7)))
      as [_ Hserved].
    fold tasks in Hserved. rewrite Hserved, Hfirst; [reflexivity|].
    intros i. rewrite Hnth.
    destruct i as [|[|[|[|i]]]]; cbn; try lia; destruct i; lia.
Defined.

(** ** The script on a batch that is not empty *)



(** ** The download of the staging side *)

(** X14: [download_data] never returns [None]: for a status from 400 to 599
    it raises [HTTPError] with that status, without reading the body and
    without the second log line; for any other status it returns the parsed
    body, after logging its length, or raises what parsing or [len] raised;
    and what [requests.get] raises is raised unchanged. *)
Theorem download_data_returns_body_or_raises :
  forall (B : Type) (len : B -> option nat) (url : string)
         (get_answer : Staging.fetched (Staging.Response B)),
    let run := Staging.download_data len url get_answer in
    let started := Log DEBUG ("Downloading data from: " ++ url) in
    snd run <> Staging.Fetched None
    /\ match get_answer with
       | Staging.FetchRaise e => run = ([started], Staging.FetchRaise e)
       | Staging.Fetched response =>
           if (400 <=? Staging.status_code response) && (Staging.status_code response <? 600)
           then run = ([started],
                       Staging.FetchRaise (Staging.HTTPError (Staging.status_code response)))
           else match Staging.json response with
                | Staging.FetchRaise e => run = ([started], Staging.FetchRaise e)
                | Staging.Fetched body =>
                    match len body with
                    | Some n =>
                        run = ([started;
                                Log DEBUG ("Downloaded len: " ++ py_str (Z.of_nat n))],
                               Staging.Fetched (Some body))
                    | None => exists msg, run = ([started],
                                                 Staging.FetchRaise (Staging.TypeError msg))
                    end
                end
       end.
Proof.
  intros B len url get_answer run started. subst run.
  unfold Staging.download_data, Staging.ok, Staging.raise_for_status. fold started.
  destruct get_answer as [response|e]; [|split; [discriminate | reflexivity]].
  destruct ((400 <=? Staging.status_code response) && (Staging.status_code response <? 600));
    [split; [discriminate | reflexivity]|].
  destruct (Staging.json response) as [body|e]; [|split; [discriminate | reflexivity]].
  destruct (len body) as [n|]; split; try discriminate; try reflexivity.
  eexists. reflexivity.
Qed.

(** ** The frame of the staging side *)

Lemma rename_no_old_label (df : DataFrame) (old new : string) :
  old <> new -> ~ In old (columns (rename df [(old, new)])).
Proof.
  intros Hne Hin. unfold rename in Hin. cbn [columns] in Hin.
  apply in_map_iff in Hin as (c & Hc & _). cbn [assoc] in Hc.
  destruct (String.eqb c old) eqn:E; [congruence|].
  subst c. now rewrite String.eqb_refl in E.
Qed.

Lemma staging_frame_transform (batch : list RawRecord) :
  batch <> [] ->
  Staging.transform_data_to_df (map Staging.post_dict batch) = staged_frame batch.
Proof.
  intros Hne. destruct batch as [|r batch]; [congruence|].
  unfold Staging.transform_data_to_df, rename, from_dict, staged_frame.
  assert (Hkeys : Forall (fun k => In k ["userId"; "id"; "title"; "body"])
                         (dedup_on String.eqb (fun k => k)
                                   (flat_map (map fst) (map Staging.post_dict batch)))).
  { apply Forall_forall. intros k Hk.
    apply dedup_on_incl in Hk. apply in_flat_map in Hk as (d & Hd & Hk).
    apply in_map_iff in Hd as (r' & <- & _). exact Hk. }
  assert (Hcols : dedup_on String.eqb (fun k => k)
                           (flat_map (map fst) (map Staging.post_dict (r :: batch)))
                  = ["userId"; "id"; "title"; "body"]).
  { cbn. do 4 f_equal.
    induction Hkeys as [|k ks Hk _ IH]; [reflexivity|].
    destruct Hk as [<-|[<-|[<-|[<-|[]]]]]; cbn; exact IH. }
  rewrite Hcols. cbn [columns rows map assoc String.eqb Ascii.eqb Bool.eqb].
  f_equal. rewrite List.map_map. reflexivity.
Qed.

(** X15: the frame that [STGLoader.transform_data_to_df] builds has one row
    per record and one cell per label in every row, carries no label
    [userId], and has pairwise different labels unless some record already
    had a key [user_id]; for posts of the source (keys [userId], [id],
    [title], [body]) it is the frame with the labels [user_id], [id],
    [title], [body] that the DDS side later reads back. *)
Theorem staging_frame_of_posts :
  forall data : list dict,
    let df := Staging.transform_data_to_df data in
    List.length (rows df) = List.length data
    /\ rectangular df = true
    /\ ~ In "userId" (columns df)
    /\ (~ In "user_id" (flat_map (map fst) data) -> NoDup (columns df))
    /\ (forall batch : list RawRecord,
          batch <> [] -> data = map Staging.post_dict batch -> df = staged_frame batch).
Proof.
  intros data df. subst df. unfold Staging.transform_data_to_df.
  split; [unfold rename, from_dict; cbn [rows]; apply length_map|].
  split.
  { apply rectangular_Forall, Forall_forall. unfold rename, from_dict. cbn [rows columns].
    intros r Hr. apply in_map_iff in Hr as (d & <- & _). now rewrite !length_map. }
  split; [apply rename_no_old_label; discriminate|].
  split.
  { intros Hnew. unfold rename, from_dict. cbn [columns].
    pose proof (dedup_on_keys_NoDup String.eqb String.eqb_eq (fun k : string => k)
                                    (flat_map (map fst) data)) as Hnd.
    rewrite map_id in Hnd.
    apply NoDup_map_NoDup_ForallPairs; [|exact Hnd].
    intros x y Hx Hy. cbn [assoc].
    apply dedup_on_incl in Hx. apply dedup_on_incl in Hy.
    destruct (String.eqb_spec x "userId") as [->|Hx'];
      destruct (String.eqb_spec y "userId") as [->|Hy']; intros Heq; subst;
        try reflexivity; contradiction. }
  intros batch Hne ->. now apply staging_frame_transform.
Qed.

Lemma staging_frame_of_posts_witness :
  let data := map Staging.post_dict sample_batch in
  (~ In "user_id" (flat_map (map fst) data) -> NoDup (columns (Staging.transform_data_to_df data)))
  /\ Staging.transform_data_to_df data = staged_frame sample_batch.
Proof.
  intros data.
  destruct (staging_frame_of_posts data) as (_ & _ & _ & Hnd & Hposts).
  split; [exact Hnd|]. apply (Hposts sample_batch); [discriminate | reflexivity].
Defined.

(** ** The staging script *)

Lemma upload_df_to_db_observed (lt : string) (db : store) (self : STGLoader) (df : DataFrame) :
  connect_answer db = None ->
  let copy := copy_df lt db df (stg_table_name self) None (Some (stg_schema self))
                      default_block_size in
  let load := upload_df_to_db lt db self df in
  written (fst load) = written (fst copy)
  /\ copy_starts (fst load) = copy_starts (fst copy)
  /\ chunks (fst load) = chunks (fst copy)
  /\ snd load = match snd copy with
                | Raise e => if is_UniqueViolation e then Ok tt else Raise e
                | Ok _ => Ok tt
                end.
Proof.
  intros Hconn copy load. subst load.
  unfold upload_df_to_db, with_connection, call, logger_debug, emit. rewrite Hconn.
  fold copy. destruct copy as [t [[]|e]]; cbn [fst snd];
    unfold try_except, logger_error, emit, io_bind.
  - cbn. rewrite written_app, copy_starts_app, chunks_app. cbn.
    now rewrite string_app_empty_r, !app_nil_r.
  - destruct (is_UniqueViolation e); cbn.
    + rewrite !written_app, !copy_starts_app, !chunks_app. cbn.
      now rewrite !string_app_empty_r, !app_nil_r.
    + destruct (is_Exception e); cbn; rewrite written_app, copy_starts_app, chunks_app; cbn;
        now rewrite string_app_empty_r, !app_nil_r.
Qed.

Lemma download_data_only_logs {B : Type} (len : B -> option nat) (url : string)
      (get_answer : Staging.fetched (Staging.Response B)) :
  Forall (fun ev => exists lvl msg, ev = Log lvl msg)
         (fst (Staging.download_data len url get_answer)).
Proof.
  unfold Staging.download_data.
  destruct get_answer as [response|e]; [|repeat econstructor].
  destruct (Staging.ok response).
  - destruct (Staging.json response) as [body|e]; [|repeat econstructor].
    destruct (len body); repeat econstructor.
  - destruct (Staging.raise_for_status response); repeat econstructor.
Qed.

(** X16: when the download raises (no answer in time, a connection error, a
    status from 400 to 599, a body that is not JSON), [main_stg.py] ends
    with that error having done nothing but log: no connection to the
    database is opened.  When the download returns, the connection is
    opened. *)
Theorem failed_download_opens_no_connection :
  forall (lt : string) (get_answer : Staging.fetched (Staging.Response (list dict)))
         (db : store),
    let download := Staging.download_data (fun body => Some (List.length body))
                                          Staging.TARGET_URL get_answer in
    let run := Staging.main_stg lt get_answer db in
    match snd download with
    | Staging.FetchRaise e =>
        snd run = Staging.FetchFailed e
        /\ Forall (fun ev => exists lvl msg, ev = Log lvl msg) (fst run)
    | Staging.Fetched _ => In Connect (fst run)
    end.
Proof.
  intros lt get_answer db download run. subst run. unfold Staging.main_stg.
  change (stg_url Staging.stg_loader) with Staging.TARGET_URL. fold download.
  pose proof (download_data_only_logs (fun body : list dict => Some (List.length body))
                                      Staging.TARGET_URL get_answer) as Hlogs.
  fold download in Hlogs.
  destruct download as [t [data|e]]; cbn [fst snd] in *.
  - destruct (upload_df_to_db lt db Staging.stg_loader _) as [t' r] eqn:E.
    cbn [fst]. right. apply in_or_app. right. right.
    assert (Ht' : t' = fst (upload_df_to_db lt db Staging.stg_loader
                                           match data with
                                           | Some data0 => Staging.transform_data_to_df data0
                                           | None => rename (mkDF [] []) [("userId", "user_id")]
                                           end))
      by now rewrite E.
    rewrite Ht'. unfold upload_df_to_db, with_connection, call, io_bind.
    destruct (connect_answer db); [now left|].
    match goal with |- context [match ?x with _ => _ end] => destruct x as [? [?|?]] end;
      try destruct (is_Exception _); now left.
  - split; [reflexivity|]. constructor; [do 2 eexists; reflexivity | exact Hlogs].
Qed.

(** X17: posts downloaded with a status that is no error reach the staging
    table under the labels the DDS side selects: the one COPY command sent
    is for [stg.raw_test_data] and names [user_id], [id], [title], [body],
    and when the store accepts the connection, the command and the chunks,
    the data written is the text of the frame of these posts.  An empty list
    of posts still opens the connection and sends a COPY command, with an
    empty list of columns and no data. *)
Theorem posts_are_staged_under_the_selected_columns :
  forall (lt : string) (db : store) (batch : list RawRecord) (status : Z),
    status < 400 \/ 600 <= status ->
    connect_answer db = None ->
    (forall statement, copy_start_answer db statement = None) ->
    (forall k data, copy_write_answer db k data = None) ->
    let run := Staging.main_stg lt
                 (Staging.Fetched (Staging.mkResponse status
                                     (Staging.Fetched (map Staging.post_dict batch)))) db in
    (batch <> [] ->
     copy_starts (fst run)
     = [copy_statement 12 "stg.raw_test_data"
                       (columns_clause None (mkDF ["user_id"; "id"; "title"; "body"] []))]
     /\ written (fst run) = to_csv lt (staged_frame batch))
    /\ (batch = [] ->
        copy_starts (fst run) = [copy_statement 12 "stg.raw_test_data" EmptyString]
        /\ chunks (fst run) = []).
Proof.
  intros lt db batch status Hstatus Hconn Hstart Hwrite run. subst run.
  assert (Hok : (400 <=? status) && (status <? 600) = false).
  { destruct (Z.leb_spec 400 status); destruct (Z.ltb_spec status 600); cbn; try reflexivity; lia. }
  unfold Staging.main_stg, Staging.download_data, Staging.ok, Staging.raise_for_status.
  cbn [Staging.status_code Staging.json]. rewrite Hok.
  split.
  - intros Hne.
    rewrite (staging_frame_transform batch Hne).
    destruct (upload_df_to_db_observed lt db Staging.stg_loader (staged_frame batch) Hconn)
      as (Hw & Hs & _ & _).
    destruct (upload_df_to_db lt db Staging.stg_loader (staged_frame batch)) as [t r].
    cbn [fst snd] in *. cbn [length app copy_starts written].
    rewrite Hw, Hs. split.
    + apply copy_starts_copy_block, copy_loop_only_writes.
    + unfold copy_df. rewrite written_copy_block by apply Hstart.
      destruct (copy_loop_writes_all db 0 (seek (write StringIO_new (to_csv lt (staged_frame batch))) 0)
                                     default_block_size eq_refl Hwrite) as [_ ->].
      apply fresh_buffer.
  - intros ->.
    destruct (upload_df_to_db_observed lt db Staging.stg_loader
                                       (Staging.transform_data_to_df []) Hconn)
      as (_ & Hs & Hc & _).
    cbn [map].
    destruct (upload_df_to_db lt db Staging.stg_loader (Staging.transform_data_to_df []))
      as [t r].
    cbn [fst snd] in *. cbn [length app copy_starts chunks].
    rewrite Hs, Hc. split.
    + apply (copy_starts_copy_block db _ _ (proj1 (copy_loop_only_writes _ _ _ _))).
    + pose proof (copy_df_trace lt db (Staging.transform_data_to_df [])
                                (stg_table_name Staging.stg_loader) None
                                (Some (stg_schema Staging.stg_loader)) default_block_size) as Ht.
      cbv zeta in Ht. rewrite Ht. clear Ht.
      change (to_csv lt (Staging.transform_data_to_df [])) with EmptyString.
      rewrite copy_loop_empty_buffer, Hstart. cbn.
      destruct (copy_finish_answer db _); reflexivity.
Qed.

Lemma posts_are_staged_under_the_selected_columns_witness :
  let run := Staging.main_stg newline
               (Staging.Fetched (Staging.mkResponse 200
                                   (Staging.Fetched (map Staging.post_dict sample_batch))))
               accepting_store in
  (200 < 400 \/ 600 <= 200)
  /\ copy_starts (fst run)
     = [copy_statement 12 "stg.raw_test_data"
                       (columns_clause None (mkDF ["user_id"; "id"; "title"; "body"] []))]
  /\ written (fst run) = ("1,10,A,x" ++ newline ++ "1,11,B,y" ++ newline)%string.
Proof.
  intros run. split; [left; lia|].
  destruct (posts_are_staged_under_the_selected_columns
              newline accepting_store sample_batch 200
              (or_introl eq_refl) eq_refl (fun _ => eq_refl) (fun _ _ => eq_refl))
    as [Hposts _].
  destruct Hposts as [Hstart Hwritten]; [discriminate|].
  split; [exact Hstart|]. fold run in Hwritten. rewrite Hwritten. reflexivity.
Defined.

(** ** From the staging script to the DDS script *)

(** X18: the two scripts agree on the frame.  When the staging table returns
    the records of a batch that is not empty, the frame that the DDS script
    builds from what [download_stg_data] returns, one dict per record, is the
    frame that the staging script built from the posts carrying the same
    values; the download commits and closes its connection. *)
Theorem dds_reads_back_the_staged_frame :
  forall (stg : store) (batch : list RawRecord),
    connect_answer stg = None ->
    select_answer stg = Ok batch ->
    batch <> [] ->
    exists data : list dict,
      snd (download_stg_data stg) = Ok data
      /\ List.length data = List.length batch
      /\ transform_data_to_df data
         = Staging.transform_data_to_df (map Staging.post_dict batch)
      /\ transaction_calls (fst (download_stg_data stg)) = [Commit; Close].
Proof.
  intros stg batch Hconn Hsel Hne. exists (map dict_row batch).
  unfold download_stg_data, with_connection, call, logger_debug, emit, lift, io_ret.
  rewrite Hconn, Hsel. cbn [io_bind app fst snd].
  split; [reflexivity|]. split; [apply length_map|].
  split; [|reflexivity].
  now rewrite (transform_staged batch Hne), (staging_frame_transform batch Hne).
Qed.

Lemma dds_reads_back_the_staged_frame_witness :
  exists data : list dict,
    snd (download_stg_data (staging_of sample_batch)) = Ok data
    /\ List.length data = 2%nat
    /\ transform_data_to_df data
       = Staging.transform_data_to_df (map Staging.post_dict sample_batch)
    /\ transaction_calls (fst (download_stg_data (staging_of sample_batch))) = [Commit; Close].
Proof.
  apply (dds_reads_back_the_staged_frame (staging_of sample_batch) sample_batch);
    [reflexivity | reflexivity | discriminate].
Defined.

(** ** Which table each frame goes to *)

Lemma copy_starts_upload_dds_table
      (lt : string) (db : store) (df : DataFrame) (table_name : string)
      (cols : option (list string)) (schema : option string) (block_size : Z) :
  connect_answer db = None ->
  copy_starts (fst (upload_dds_table lt db df table_name cols schema block_size))
  = [copy_statement 24 (table_path schema table_name) (columns_clause cols df)].
Proof.
  intros Hconn. unfold upload_dds_table. rewrite copy_starts_try_except.
  pose proof (upload_dds_attempt_trace lt db df table_name cols schema block_size) as Ht.
  cbv zeta in Ht. rewrite Ht, Hconn. clear Ht.
  assert (Hloop : copy_starts (fst (copy_loop db 0 (seek (write StringIO_new (to_csv lt df)) 0)
                                              block_size)) = [])
    by apply copy_loop_only_writes.
  destruct (copy_start_answer db _); [reflexivity|].
  destruct (snd (copy_loop db 0 (seek (write StringIO_new (to_csv lt df)) 0) block_size))
    as [[]|e]; [destruct (copy_finish_answer db _)|];
    cbn; rewrite copy_starts_app, Hloop; reflexivity.
Qed.

(** X19: the orchestrator sends each frame to its own table.  Whenever the
    projection returned and the four connections open, the four loads send,
    in this order, one COPY command each: the users hub to
    [schema.table_h_users] with the columns [user_id], [user_id_hash]; the
    letters hub to [schema.table_h_letters] with [letter_id] (the renamed
    key) and [letter_id_hash]; the letters satellite to
    [schema.table_s_letters] with [letter_id_hash], [title], [body]; the
    posts link to [schema.table_l_posts] with [user_id_hash],
    [letter_id_hash]; a loader built with an empty schema name targets the
    bare table names. *)
Theorem each_frame_goes_to_its_table :
  forall (lt : string) (target : string -> store) (self : DDSLoader)
         (df : DataFrame) (t : tables),
    split_df_to_tables df = Ok t ->
    (forall table_name, connect_answer (target table_name) = None) ->
    let names := fun labels => columns_clause None (mkDF labels []) in
    let path := fun table_name => table_path (Some (schema self)) table_name in
    map (fun coro => copy_starts (fst coro)) (upload_dds_data lt target self t)
    = [ [copy_statement 24 (path (table_h_users self)) (names ["user_id"; "user_id_hash"])];
        [copy_statement 24 (path (table_h_letters self))
                        (names ["letter_id"; "letter_id_hash"])];
        [copy_statement 24 (path (table_s_letters self))
                        (names ["letter_id_hash"; "title"; "body"])];
        [copy_statement 24 (path (table_l_posts self))
                        (names ["user_id_hash"; "letter_id_hash"])] ]
    /\ (schema self = EmptyString -> forall table_name, path table_name = table_name)
    /\ (schema self <> EmptyString ->
        forall table_name, path table_name = (schema self ++ "." ++ table_name)%string).
Proof.
  intros lt target self df t Hsplit Hconn names path.
  assert (Hcols : columns (df_users_hub t) = ["user_id"; "user_id_hash"]
                  /\ columns (df_letters_hub t) = ["letter_id"; "letter_id_hash"]
                  /\ columns (df_letters_satellite t) = ["letter_id_hash"; "title"; "body"]
                  /\ columns (df_posts_link t) = ["user_id_hash"; "letter_id_hash"]).
  { revert Hsplit. unfold split_df_to_tables, getitem_list. cbn [indices_of columns].
    destruct (index_of "user_id" (columns df)); cbn [bind]; [|discriminate].
    destruct (index_of "user_id_hash" (columns df)); cbn [bind]; [|discriminate].
    destruct (index_of "id" (columns df)); cbn [bind]; [|discriminate].
    destruct (index_of "letter_id_hash" (columns df)); cbn [bind]; [|discriminate].
    destruct (index_of "title" (columns df)); cbn [bind]; [|discriminate].
    destruct (index_of "body" (columns df)); cbn [bind]; [|discriminate].
    intros [= <-]. repeat split. }
  destruct Hcols as (Hu & Hl & Hs & Hp).
  split; [|split].
  - unfold upload_dds_data. cbn [map].
    rewrite !copy_starts_upload_dds_table by apply Hconn.
    unfold names, path, columns_clause. cbn [columns]. now rewrite Hu, Hl, Hs, Hp.
  - intros Hempty table_name. unfold path, table_path. now rewrite Hempty.
  - intros Hne table_name. unfold path, table_path.
    destruct (schema self); [congruence | reflexivity].
Qed.

Lemma each_frame_goes_to_its_table_witness :
  match enrich_and_split (staged_frame sample_batch) with
  | Ok t =>
      map (fun coro => copy_starts (fst coro))
          (upload_dds_data newline (fun _ => accepting_store) dss_loader t)
      = [ [copy_statement 24 "dds.h_users"
                          (columns_clause None (mkDF ["user_id"; "user_id_hash"] []))];
          [copy_statement 24 "dds.h_letters"
                          (columns_clause None (mkDF ["letter_id"; "letter_id_hash"] []))];
          [copy_statement 24 "dds.s_letters"
                          (columns_clause None (mkDF ["letter_id_hash"; "title"; "body"] []))];
          [copy_statement 24 "dds.l_posts"
                          (columns_clause None (mkDF ["user_id_hash"; "letter_id_hash"] []))] ]
  | Raise _ => False
  end.
Proof.
  destruct (enrich_and_split (staged_frame sample_batch)) as [t|e] eqn:E;
    [|vm_compute in E; discriminate E].
  unfold enrich_and_split in E. rewrite add_hashes_staged in E. cbn [bind] in E.
  destruct (each_frame_goes_to_its_table newline (fun _ => accepting_store) dss_loader _ t E
                                         (fun _ => eq_refl)) as [H _].
  exact H.
Defined.
